(** * media_collection: a shallow embedding of [src/media_collection.py]

    The module downloads the images and videos referenced by two CSV files.
    Python values, the file system, the log, the HTTP layer and the worker
    pool are modelled explicitly; every definition below carries the name of
    the Python function or library call it stands for.

    What the model fixes:
    - a computation is a function from the state (files, log, requests made,
      calls on the progress bar) to a state and a result that is a value or
      an exception; [try ... except] is [try_except];
    - the network, the HTML parser and the failures of the disk are a
      [world]: functions, so the same request gets the same answer;
    - the calls submitted to a [ThreadPoolExecutor] run one after the other,
      in submission order, once the submitting loop is over; each call is
      atomic;
    - a file system is the map from the paths that exist to their content;
      directories are taken to exist;
    - the two CSV files are given as their lines, with text columns. *)

From Stdlib Require Import ZArith Ascii String List Lia.
From stdpp Require Import base option list strings gmap fin_maps.

Local Open Scope string_scope.
Local Open Scope list_scope.

(** ** [hashlib.md5]: the digest behind [hash_url] *)

Module MD5.

Local Open Scope Z_scope.

Definition mask32 (x : Z) : Z := Z.land x 0xffffffff.
Definition add32 (x y : Z) : Z := mask32 (x + y).
Definition not32 (x : Z) : Z := Z.lxor x 0xffffffff.
Definition rotl32 (x : Z) (c : Z) : Z :=
  mask32 (Z.lor (Z.shiftl x c) (Z.shiftr x (32 - c))).

Definition K : list Z :=
  [ 0xd76aa478; 0xe8c7b756; 0x242070db; 0xc1bdceee;
    0xf57c0faf; 0x4787c62a; 0xa8304613; 0xfd469501;
    0x698098d8; 0x8b44f7af; 0xffff5bb1; 0x895cd7be;
    0x6b901122; 0xfd987193; 0xa679438e; 0x49b40821;
    0xf61e2562; 0xc040b340; 0x265e5a51; 0xe9b6c7aa;
    0xd62f105d; 0x02441453; 0xd8a1e681; 0xe7d3fbc8;
    0x21e1cde6; 0xc33707d6; 0xf4d50d87; 0x455a14ed;
    0xa9e3e905; 0xfcefa3f8; 0x676f02d9; 0x8d2a4c8a;
    0xfffa3942; 0x8771f681; 0x6d9d6122; 0xfde5380c;
    0xa4beea44; 0x4bdecfa9; 0xf6bb4b60; 0xbebfbc70;
    0x289b7ec6; 0xeaa127fa; 0xd4ef3085; 0x04881d05;
    0xd9d4d039; 0xe6db99e5; 0x1fa27cf8; 0xc4ac5665;
    0xf4292244; 0x432aff97; 0xab9423a7; 0xfc93a039;
    0x655b59c3; 0x8f0ccc92; 0xffeff47d; 0x85845dd1;
    0x6fa87e4f; 0xfe2ce6e0; 0xa3014314; 0x4e0811a1;
    0xf7537e82; 0xbd3af235; 0x2ad7d2bb; 0xeb86d391 ].

Definition S : list Z :=
  [ 7; 12; 17; 22; 7; 12; 17; 22; 7; 12; 17; 22; 7; 12; 17; 22;
    5;  9; 14; 20; 5;  9; 14; 20; 5;  9; 14; 20; 5;  9; 14; 20;
    4; 11; 16; 23; 4; 11; 16; 23; 4; 11; 16; 23; 4; 11; 16; 23;
    6; 10; 15; 21; 6; 10; 15; 21; 6; 10; 15; 21; 6; 10; 15; 21 ].

(** The padded message: a [0x80] byte, zeros up to 56 modulo 64, then the
    bit length as a 64-bit little-endian integer. *)
Fixpoint le_bytes (n : nat) (x : Z) : list Z :=
  match n with
  | O => []
  | Datatypes.S n' => Z.land x 0xff :: le_bytes n' (Z.shiftr x 8)
  end.

Definition pad (msg : list Z) : list Z :=
  let len := Z.of_nat (length msg) in
  let zeros := Z.to_nat ((55 - len) mod 64) in
  msg ++ 0x80 :: repeat 0 zeros ++ le_bytes 8 (Z.land (len * 8) 0xffffffffffffffff).

Definition word_of_le (bs : list Z) : Z :=
  fold_right (fun b acc => Z.lor b (Z.shiftl acc 8)) 0 bs.

Fixpoint words (n : nat) (bs : list Z) : list Z :=
  match n with
  | O => []
  | Datatypes.S n' => word_of_le (take 4 bs) :: words n' (drop 4 bs)
  end.

(** One of the 64 operations of a block. *)
Definition step (M : list Z) (st : Z * Z * Z * Z) (i : nat) : Z * Z * Z * Z :=
  let '(A, B, C, D) := st in
  let iz := Z.of_nat i in
  let '(F, g) :=
    if iz <? 16 then (Z.lor (Z.land B C) (Z.land (not32 B) D), iz)
    else if iz <? 32 then (Z.lor (Z.land D B) (Z.land (not32 D) C), (5 * iz + 1) mod 16)
    else if iz <? 48 then (Z.lxor (Z.lxor B C) D, (3 * iz + 5) mod 16)
    else (Z.lxor C (Z.lor B (not32 D)), (7 * iz) mod 16) in
  let F' := add32 (add32 (add32 F A) (nth i K 0)) (nth (Z.to_nat g) M 0) in
  (D, add32 B (rotl32 F' (nth i S 0)), B, C).

Definition block (h : Z * Z * Z * Z) (bs : list Z) : Z * Z * Z * Z :=
  let M := words 16 bs in
  let '(a0, b0, c0, d0) := h in
  let '(A, B, C, D) := fold_left (step M) (seq 0 64) h in
  (add32 a0 A, add32 b0 B, add32 c0 C, add32 d0 D).

Fixpoint blocks (n : nat) (h : Z * Z * Z * Z) (bs : list Z) : Z * Z * Z * Z :=
  match n with
  | O => h
  | Datatypes.S n' => blocks n' (block h (take 64 bs)) (drop 64 bs)
  end.

Definition digest (msg : list Z) : list Z :=
  let p := pad msg in
  let '(a, b, c, d) :=
    blocks (length p / 64) (0x67452301, 0xefcdab89, 0x98badcfe, 0x10325476) p in
  le_bytes 4 a ++ le_bytes 4 b ++ le_bytes 4 c ++ le_bytes 4 d.

Definition hex_digit (x : Z) : ascii :=
  if x <? 10 then ascii_of_N (Z.to_N (48 + x)) else ascii_of_N (Z.to_N (87 + x)).

Fixpoint hex (bs : list Z) : string :=
  match bs with
  | [] => EmptyString
  | b :: bs' =>
      String (hex_digit (Z.shiftr b 4)) (String (hex_digit (Z.land b 0xf)) (hex bs'))
  end.

Definition bytes_of_string (s : string) : list Z :=
  map (fun a => Z.of_N (N_of_ascii a)) (list_ascii_of_string s).

(** [hashlib.md5(data).hexdigest()] *)
Definition hexdigest (s : string) : string := hex (digest (bytes_of_string s)).

End MD5.

(** [hash_url(url)]: [hashlib.md5(url.encode()).hexdigest()].  A [string] is
    the UTF-8 encoding of the Python text. *)
Definition hash_url (url : string) : string := MD5.hexdigest url.

(** ** Python values, exceptions and results *)

(** The values the module passes around as URLs and hashes: a [str], [None]
    (what [Tag.get] and the [video_hash] lambda return for a missing value)
    or the float [nan] pandas stores for a missing cell. *)
Inductive pyval :=
| PyStr (s : string)
| PyNone
| PyNaN.

#[global] Instance pyval_eq_dec : EqDecision pyval.
Proof. solve_decision. Defined.

(** [f"{v}"] *)
Definition py_format (v : pyval) : string :=
  match v with
  | PyStr s => s
  | PyNone => "None"
  | PyNaN => "nan"
  end.

(** [pd.notna(v)] *)
Definition pd_notna (v : pyval) : bool :=
  match v with
  | PyStr _ => true
  | PyNone | PyNaN => false
  end.

(** The exceptions the calls of the module raise.  [HTTPError],
    [ConnectionError], [Timeout], [ChunkedEncodingError] and [MissingSchema]
    are classes of [requests]; the other three are builtins. *)
Inductive exn :=
| HTTPError (status : Z)
| ConnectionError
| Timeout
| ChunkedEncodingError
| MissingSchema
| IndexError
| ValueError
| OSError.

#[global] Instance exn_eq_dec : EqDecision exn.
Proof. solve_decision. Defined.

Inductive pyresult (A : Type) :=
| Return (a : A)
| Raise (e : exn).
Arguments Return {A} a.
Arguments Raise {A} e.

(** ** The observable state: files, log, HTTP requests, progress bar *)

Inductive log_level := INFO | ERROR.

(** One constructor per [logging] call of the module; the argument is what
    the f-string interpolates. *)
Inductive log_message :=
| ImageAlreadyExists (file_path : string)
| ImageSaved (file_path : string)
| HttpErrorOccurred (http_err : exn)
| ErrorOccurred (err : exn)
| VideoAlreadyExists (file_path : string)
| VideoSaved (file_path : string)
| ExtractErrorOccurred (err : exn)
| CollectionCompleted.

Definition log_record : Type := log_level * log_message.

(** A call [requests.get(url)] or [requests.get(url, stream=True)]. *)
Record request := { req_url : pyval; req_stream : bool }.

(** The calls made on the [tqdm] progress bar. *)
Inductive tqdm_call :=
| TqdmNew (total : Z) (desc : string)
| TqdmUpdate (n : nat)
| TqdmClose.

Record state := {
  files : gmap string (list Byte.byte);   (* path -> content of the files that exist *)
  log : list log_record;
  requests : list request;
  progress : list tqdm_call
}.

Definition set_files (f : gmap string (list Byte.byte)) (s : state) : state :=
  {| files := f; log := log s; requests := requests s; progress := progress s |}.
Definition add_log (r : log_record) (s : state) : state :=
  {| files := files s; log := log s ++ [r]; requests := requests s; progress := progress s |}.
Definition add_request (r : request) (s : state) : state :=
  {| files := files s; log := log s; requests := requests s ++ [r]; progress := progress s |}.
Definition add_progress (c : tqdm_call) (s : state) : state :=
  {| files := files s; log := log s; requests := requests s; progress := progress s ++ [c] |}.

(** A Python computation: it changes the state and returns or raises.  The
    state reached before an exception is kept. *)
Definition M (A : Type) : Type := state -> state * pyresult A.

Definition ret {A} (a : A) : M A := fun s => (s, Return a).
Definition raise {A} (e : exn) : M A := fun s => (s, Raise e).
Definition bind {A B} (m : M A) (k : A -> M B) : M B :=
  fun s =>
    match m s with
    | (s', Return a) => k a s'
    | (s', Raise e) => (s', Raise e)
    end.

Notation "x <- m ;; k" := (bind m (fun x => k))
  (at level 100, m at next level, right associativity).
Notation "m ;;; k" := (bind m (fun _ => k))
  (at level 100, right associativity).

(** [try: body except C1 as e: h1 except C2 as e: h2]: the first clause
    whose class matches handles the exception. *)
Record except_clause (A : Type) := {
  catches : exn -> bool;
  handler : exn -> M A
}.
Arguments catches {A} _ _.
Arguments handler {A} _ _.

Definition isinstance_HTTPError (e : exn) : bool :=
  match e with
  | HTTPError _ => true
  | _ => false
  end.

Definition except_HTTPError {A} (h : exn -> M A) : except_clause A :=
  {| catches := isinstance_HTTPError; handler := h |}.
Definition except_Exception {A} (h : exn -> M A) : except_clause A :=
  {| catches := fun _ => true; handler := h |}.

Definition try_except {A} (body : M A) (clauses : list (except_clause A)) : M A :=
  fun s =>
    match body s with
    | (s', Return a) => (s', Return a)
    | (s', Raise e) =>
        match List.find (fun c => catches c e) clauses with
        | Some c => handler c e s'
        | None => (s', Raise e)
        end
    end.

Definition logging_info (m : log_message) : M unit :=
  fun s => (add_log (INFO, m) s, Return tt).
Definition logging_error (m : log_message) : M unit :=
  fun s => (add_log (ERROR, m) s, Return tt).

(** ** The environment: HTTP, the HTML parser, the disk *)

(** A response of [requests]: [headers] is keyed by the lower-cased header
    name (the case-insensitive dictionary of [requests]); [content] is the
    body as [iter_content] and [.content] deliver it; [broken] is the
    exception with which the transfer ends after [content], if it does. *)
Record response := {
  status_code : Z;
  headers : gmap string string;
  content : list Byte.byte;
  broken : option exn
}.

(** Document tree of [bs4]: a tag with its attribute dictionary and
    children, or a text node. *)
#[local] Unset Elimination Schemes.
Inductive node :=
| Tag (name : string) (attrs : list (string * string)) (children : list node)
| NavigableString (text : string).
#[local] Set Elimination Schemes.

Record world := {
  http_get : string -> pyresult response;     (* the server's answer to a GET *)
  html_parser : list Byte.byte -> node;            (* bs4.BeautifulSoup(text, "html.parser") *)
  open_wb : string -> option exn;             (* open(path, 'wb') fails with *)
  file_write : string -> nat -> option exn    (* file.write at an offset fails with *)
}.

(** ** Library calls *)

Section Library.

Context (w : world).

(** [os.path.exists(path)] *)
Definition os_path_exists (path : string) : M bool :=
  fun s => (s, Return (bool_decide (is_Some (files s !! path)))).

Definition ends_with_sep (a : string) : bool :=
  match String.get (String.length a - 1) a with
  | Some c => bool_decide (c = "/"%char)
  | None => false
  end.

(** [os.path.join(a, b)] of [posixpath] *)
Definition os_path_join (a b : string) : string :=
  if String.prefix "/" b then b
  else if bool_decide (a = "") || ends_with_sep a then a +:+ b
  else a +:+ "/" +:+ b.

(** [requests.get(url)] and [requests.get(url, stream=True)].  A URL that
    is not a [str] is formatted and has no scheme: [MissingSchema].
    Without [stream] the whole body is read before the call returns, so a
    broken transfer raises here. *)
Definition response_of (url : pyval) (stream : bool) : pyresult response :=
  match url with
  | PyStr u =>
      match http_get w u with
      | Return r =>
          if stream then Return r
          else match broken r with
               | Some e => Raise e
               | None => Return r
               end
      | Raise e => Raise e
      end
  | PyNone | PyNaN => Raise MissingSchema
  end.

Definition requests_get (url : pyval) (stream : bool) : M response :=
  fun s => (add_request {| req_url := url; req_stream := stream |} s, response_of url stream).

(** [response.raise_for_status()]: [HTTPError] for a 4xx or 5xx status. *)
Definition is_error_status (status : Z) : bool :=
  ((400 <=? status) && (status <? 600))%Z.

Definition raise_for_status (r : response) : M unit :=
  if is_error_status (status_code r)
  then raise (HTTPError (status_code r))
  else ret tt.

(** [int(s)] on a [str]: optional surrounding white space, an optional
    sign, decimal digits with single underscores between them. *)
Definition is_space (c : ascii) : bool :=
  let n := nat_of_ascii c in
  (((9 <=? n) && (n <=? 13)) || ((28 <=? n) && (n <=? 32)))%nat.

Definition is_digit (c : ascii) : bool :=
  let n := nat_of_ascii c in ((48 <=? n) && (n <=? 57))%nat.

Fixpoint all_space (s : string) : bool :=
  match s with
  | EmptyString => true
  | String c r => is_space c && all_space r
  end.

Fixpoint lstrip (s : string) : string :=
  match s with
  | EmptyString => EmptyString
  | String c r => if is_space c then lstrip r else s
  end.

Fixpoint int_digits (acc : Z) (after_digit : bool) (s : string) : option Z :=
  match s with
  | EmptyString => if after_digit then Some acc else None
  | String c r =>
      if is_digit c
      then int_digits (10 * acc + Z.of_nat (nat_of_ascii c - 48)) true r
      else if bool_decide (c = "_"%char)
      then (if after_digit then int_digits acc false r else None)
      else if is_space c && after_digit && all_space r then Some acc
      else None
  end.

Definition py_int (s : string) : option Z :=
  match lstrip s with
  | String "-" r => Z.opp <$> int_digits 0 false r
  | String "+" r => int_digits 0 false r
  | r => int_digits 0 false r
  end.

(** [int(response.headers.get("content-length", 0))] *)
Definition content_length (r : response) : M Z :=
  match headers r !! "content-length" with
  | None => ret 0%Z
  | Some v =>
      match py_int v with
      | Some n => ret n
      | None => raise ValueError
      end
  end.

(** [response.iter_content(chunk_size)]: consecutive blocks of
    [chunk_size] bytes, the last one shorter when the body does not divide. *)
Fixpoint iter_content_fuel (fuel chunk_size : nat) (body : list Byte.byte)
  : list (list Byte.byte) :=
  match fuel with
  | O => []
  | S fuel' =>
      match body with
      | [] => []
      | _ :: _ =>
          take chunk_size body :: iter_content_fuel fuel' chunk_size (drop chunk_size body)
      end
  end.

Definition iter_content (chunk_size : nat) (body : list Byte.byte) : list (list Byte.byte) :=
  iter_content_fuel (length body) chunk_size body.

(** [open(file_path, 'wb')]: creates the file, or empties it. *)
Definition open_file (file_path : string) : M unit :=
  fun s =>
    match open_wb w file_path with
    | Some e => (s, Raise e)
    | None => (set_files (<[file_path := []]> (files s)) s, Return tt)
    end.

(** [file.write(data)]: appends, or raises and writes nothing. *)
Definition write_file (file_path : string) (data : list Byte.byte) : M unit :=
  fun s =>
    let old := default [] (files s !! file_path) in
    match file_write w file_path (length old) with
    | Some e => (s, Raise e)
    | None => (set_files (<[file_path := old ++ data]> (files s)) s, Return tt)
    end.

Definition tqdm_new (total : Z) (desc : string) : M unit :=
  fun s => (add_progress (TqdmNew total desc) s, Return tt).
Definition tqdm_update (n : nat) : M unit :=
  fun s => (add_progress (TqdmUpdate n) s, Return tt).
Definition tqdm_close : M unit :=
  fun s => (add_progress TqdmClose s, Return tt).

(** [l[0]] *)
Definition index0 {A} (l : list A) : M A :=
  match l with
  | x :: _ => ret x
  | [] => raise IndexError
  end.

End Library.

(** ** [bs4]: searching the document tree *)

(** The tags and strings below a node, in document order. *)
Fixpoint descendants (n : node) : list node :=
  match n with
  | NavigableString _ => []
  | Tag _ _ cs =>
      (fix go (l : list node) : list node :=
         match l with
         | [] => []
         | c :: l' => c :: descendants c ++ go l'
         end) cs
  end.

Fixpoint dict_get (k : string) (d : list (string * string)) : option string :=
  match d with
  | [] => None
  | (k', v) :: d' => if bool_decide (k = k') then Some v else dict_get k d'
  end.

(** The white-space separated tokens of a [class] attribute. *)
Fixpoint tokens (cur : string) (s : string) : list string :=
  match s with
  | EmptyString => if bool_decide (cur = "") then [] else [cur]
  | String c r =>
      if is_space c
      then (if bool_decide (cur = "") then tokens "" r else cur :: tokens "" r)
      else tokens (cur +:+ String c EmptyString) r
  end.

Definition has_class (class_ : string) (attrs : list (string * string)) : bool :=
  match dict_get "class" attrs with
  | Some v => bool_decide (class_ ∈ tokens "" v)
  | None => false
  end.

Definition tag_matches (name : string) (class_ : option string) (n : node) : bool :=
  match n with
  | Tag nm attrs _ =>
      bool_decide (nm = name) &&
      match class_ with
      | Some c => has_class c attrs
      | None => true
      end
  | NavigableString _ => false
  end.

(** [tag.find_all(name)] and [tag.find_all(name, class_=c)] *)
Definition find_all (n : node) (name : string) (class_ : option string) : list node :=
  List.filter (tag_matches name class_) (descendants n).

(** [tag.get(key)] *)
Definition tag_get (n : node) (key : string) : pyval :=
  match n with
  | Tag _ attrs _ =>
      match dict_get key attrs with
      | Some v => PyStr v
      | None => PyNone
      end
  | NavigableString _ => PyNone
  end.

(** ** [pandas]: the frame read from a CSV file *)

(** The strings [pd.read_csv] reads as a missing value by default. *)
Definition STR_NA_VALUES : list string :=
  [ ""; "#N/A"; "#N/A N/A"; "#NA"; "-1.#IND"; "-1.#QNAN"; "-NaN"; "-nan";
    "1.#IND"; "1.#QNAN"; "<NA>"; "N/A"; "NA"; "NULL"; "NaN"; "None"; "n/a";
    "nan"; "null" ].

(** A field of a text column as [pd.read_csv] stores it. *)
Definition read_csv_cell (field : string) : pyval :=
  if bool_decide (field ∈ STR_NA_VALUES) then PyNaN else PyStr field.

(** [df.dropna(subset=[col])] *)
Definition dropna {R} (col : R -> pyval) (df : list R) : list R :=
  List.filter (fun r => pd_notna (col r)) df.

(** [df.drop_duplicates(subset=[col])]: a row is kept when no earlier row
    has its value in the column. *)
Fixpoint drop_duplicates_from {R} (col : R -> pyval) (seen : list pyval) (df : list R)
  : list R :=
  match df with
  | [] => []
  | r :: df' =>
      if bool_decide (col r ∈ seen) then drop_duplicates_from col seen df'
      else r :: drop_duplicates_from col (col r :: seen) df'
  end.

Definition drop_duplicates {R} (col : R -> pyval) (df : list R) : list R :=
  drop_duplicates_from col [] df.

(** [df.dropna(subset=[col]).drop_duplicates(subset=[col])], the chain both
    pipelines start with. *)
Definition dedup {R} (col : R -> pyval) (df : list R) : list R :=
  drop_duplicates col (dropna col df).

(** The two columns [download_images] uses, and the column [download_videos]
    uses, as they stand in the CSV files. *)
Record image_line := { image_url_field : string; image_hash_field : string }.
Record video_line := { video_url_field : string }.

Record image_row := { image_url : pyval; image_hash : pyval }.
Record video_row := { video_url : pyval; video_hash : pyval }.

(** [pd.read_csv(csv_path)] for the images file. *)
Definition read_images_csv (csv : list image_line) : list image_row :=
  map (fun l => {| image_url := read_csv_cell (image_url_field l);
                   image_hash := read_csv_cell (image_hash_field l) |}) csv.

(** [pd.read_csv(csv_path)] for the videos file: the column is a list of
    cells, the [video_hash] column is added later. *)
Definition read_videos_csv (csv : list video_line) : list pyval :=
  map (fun l => read_csv_cell (video_url_field l)) csv.

(** ** The worker pool *)

(** [ThreadPoolExecutor]: every submitted call runs; what it returns or
    raises is kept in its future.  Calls run one after the other in
    submission order. *)
Fixpoint executor_run {T A} (fn : T -> M A) (calls : list T) (s : state)
  : state * list (pyresult A) :=
  match calls with
  | [] => (s, [])
  | c :: calls' =>
      let (s1, r) := fn c s in
      let (s2, rs) := executor_run fn calls' s1 in
      (s2, r :: rs)
  end.

(** [for future in as_completed(futures): future.result()]: an exception
    kept in a future is raised again. *)
Fixpoint results {A} (futures : list (pyresult A)) : M unit :=
  match futures with
  | [] => ret tt
  | Return _ :: futures' => results futures'
  | Raise e :: _ => raise e
  end.

Definition join_pool {T A} (fn : T -> M A) (calls : list T) : M unit :=
  fun s => let (s', futures) := executor_run fn calls s in results futures s'.

(** ** The module *)

Section Media_collection.

Context (w : world).

Definition image_path (download_dir : string) (image_hash : pyval) : string :=
  os_path_join download_dir (py_format image_hash +:+ ".jpg").

Definition video_path (download_dir : string) (video_hash : pyval) : string :=
  os_path_join download_dir (py_format video_hash +:+ ".mp4").

(** [download_image(image_url, image_hash, download_dir)] *)
Definition download_image (image_url image_hash : pyval) (download_dir : string) : M unit :=
  let file_path := image_path download_dir image_hash in
  found <- os_path_exists file_path ;;
  if found then logging_info (ImageAlreadyExists file_path)
  else
    try_except
      (response <- requests_get w image_url false ;;
       raise_for_status response ;;;
       open_file w file_path ;;;
       write_file w file_path (content response) ;;;
       logging_info (ImageSaved file_path))
      [ except_HTTPError (fun http_err => logging_error (HttpErrorOccurred http_err));
        except_Exception (fun err => logging_error (ErrorOccurred err)) ].

Definition unique_images (csv : list image_line) : list image_row :=
  dedup image_url (read_images_csv csv).

(** [download_images(csv_path, download_dir)]; [csv] is the content of
    the file at [csv_path]. *)
Definition download_images (csv : list image_line) (download_dir : string) : M unit :=
  join_pool (fun row => download_image (image_url row) (image_hash row) download_dir)
            (unique_images csv).

(** [extract_highest_quality_video_url(api_url)] *)
Definition extract_highest_quality_video_url (api_url : string) : M pyval :=
  response <- requests_get w (PyStr api_url) false ;;
  let data := html_parser w (content response) in
  download_button <- index0 (find_all data "div" (Some "origin-top-right")) ;;
  let quality_buttons := find_all download_button "a" None in
  first <- index0 quality_buttons ;;
  ret (tag_get first "href").

(** The loop over the chunks in [download_video]. *)
Fixpoint write_chunks (file_path : string) (chunks : list (list Byte.byte)) : M unit :=
  match chunks with
  | [] => ret tt
  | data :: chunks' =>
      tqdm_update (length data) ;;;
      write_file w file_path data ;;;
      write_chunks file_path chunks'
  end.

Definition block_size : nat := 1024.

(** [download_video(url, video_hash, download_dir)] *)
Definition download_video (url video_hash : pyval) (download_dir : string) : M unit :=
  let file_path := video_path download_dir video_hash in
  found <- os_path_exists file_path ;;
  if found then logging_info (VideoAlreadyExists file_path)
  else
    try_except
      (response <- requests_get w url true ;;
       raise_for_status response ;;;
       total_size <- content_length response ;;
       tqdm_new total_size ("Downloading " +:+ file_path) ;;;
       open_file w file_path ;;;
       write_chunks file_path (iter_content block_size (content response)) ;;;
       match broken response with
       | Some e => raise e
       | None => ret tt
       end ;;;
       tqdm_close ;;;
       logging_info (VideoSaved file_path))
      [ except_HTTPError (fun http_err => logging_error (HttpErrorOccurred http_err));
        except_Exception (fun err => logging_error (ErrorOccurred err)) ].

(** The arguments of one [executor.submit(download_video, ...)]. *)
Record video_call := { call_url : pyval; call_hash : pyval; call_dir : string }.

Definition run_video_call (c : video_call) : M unit :=
  download_video (call_url c) (call_hash c) (call_dir c).

(** The [video_hash] column: [hash_url(x) if pd.notna(x) else None]. *)
Definition hash_column (x : pyval) : pyval :=
  match x with
  | PyStr u => PyStr (hash_url u)
  | PyNone | PyNaN => PyNone
  end.

Definition unique_videos (csv : list video_line) : list video_row :=
  map (fun x => {| video_url := x; video_hash := hash_column x |})
      (dedup id (read_videos_csv csv)).

Definition api_url (video_url : pyval) : string :=
  "https://twitsave.com/info?url=" +:+ py_format video_url.

(** The loop of [download_videos] that fills [futures]. *)
Fixpoint submit_videos (rows : list video_row) (download_dir : string)
    (futures : list video_call) : M (list video_call) :=
  match rows with
  | [] => ret futures
  | row :: rows' =>
      let file_path := video_path download_dir (video_hash row) in
      found <- os_path_exists file_path ;;
      if found
      then logging_info (VideoAlreadyExists file_path) ;;;
           submit_videos rows' download_dir futures
      else
        futures' <-
          try_except
            (highest_quality_url <- extract_highest_quality_video_url (api_url (video_url row)) ;;
             ret (futures ++ [ {| call_url := highest_quality_url;
                                  call_hash := video_hash row;
                                  call_dir := download_dir |} ]))
            [ except_Exception
                (fun err => logging_error (ExtractErrorOccurred err) ;;; ret futures) ] ;;
        submit_videos rows' download_dir futures'
  end.

(** [download_videos(csv_path, download_dir)] *)
Definition download_videos (csv : list video_line) (download_dir : string) : M unit :=
  futures <- submit_videos (unique_videos csv) download_dir [] ;;
  join_pool run_video_call futures.

Definition image_save_dir : string := "/Volumes/T7/ukgetweets2/collected/images".
Definition video_save_dir : string := "/Volumes/T7/ukgetweets2/collected/videos".

(** [run_media_collection()]; the two arguments are the contents of the
    two CSV files.  The two pipelines run one after the other. *)
Definition run_media_collection (images_csv : list image_line)
    (videos_csv : list video_line) : M unit :=
  join_pool (fun job : M unit => job)
            [ download_images images_csv image_save_dir;
              download_videos videos_csv video_save_dir ] ;;;
  logging_info CollectionCompleted.

End Media_collection.

(** ** Fixtures: an initial state and worlds built from tables *)

Definition empty_state : state :=
  {| files := ∅; log := []; requests := []; progress := [] |}.

Fixpoint table_get {A} (k : string) (d : list (string * A)) : option A :=
  match d with
  | [] => None
  | (k', v) :: d' => if bool_decide (k = k') then Some v else table_get k d'
  end.

Definition empty_document : node := Tag "[document]" [] [].

(** A world that answers the URLs of [pages] (any other host is unreachable),
    parses the bodies of [documents], and has a disk that never fails. *)
Definition serve (pages : list (string * pyresult response))
    (documents : list (string * node)) : world :=
  {| http_get := fun u => default (Raise ConnectionError) (table_get u pages);
     html_parser := fun body =>
       default empty_document (table_get (string_of_list_byte body) documents);
     open_wb := fun _ => None;
     file_write := fun _ _ => None |}.

Definition ok_response (body : string) : response :=
  {| status_code := 200; headers := ∅; content := list_byte_of_string body; broken := None |}.

Definition status_response (status : Z) (body : string) : response :=
  {| status_code := status; headers := ∅; content := list_byte_of_string body; broken := None |}.

(** A landing page: the marker container with one anchor per entry of
    [hrefs]; an entry [None] is an anchor without [href]. *)
Definition anchor (href : option string) : node :=
  Tag "a" match href with Some h => [("href", h)] | None => [] end [NavigableString "Download"].

Definition landing_page (hrefs : list (option string)) : node :=
  Tag "[document]" []
    [ Tag "html" []
        [ Tag "body" []
            [ Tag "div" [("class", "flex origin-top-right absolute")] (map anchor hrefs);
              Tag "div" [("class", "footer")] [anchor (Some "https://twitsave.com/about")] ] ] ].

(** A page without the marker container: the site's error page. *)
Definition error_page : node :=
  Tag "[document]" []
    [ Tag "html" []
        [ Tag "body" []
            [ Tag "div" [("class", "text-center")]
                [ NavigableString "Sorry, we could not find any video" ];
              anchor (Some "https://twitsave.com/") ] ] ].

(** The records of the deduplication scenario: [A], [A], [B] and a missing
    URL. *)
Definition abab_records : list pyval := [PyStr "A"; PyStr "A"; PyStr "B"; PyNone].

Definition abab_lines : list video_line :=
  [ {| video_url_field := "A" |}; {| video_url_field := "A" |};
    {| video_url_field := "B" |}; {| video_url_field := "" |} ].

(** An images file of one line, and a world that serves its URL. *)
Definition one_image (hash : string) : list image_line :=
  [ {| image_url_field := "https://pbs.twimg.com/media/A.jpg"; image_hash_field := hash |} ].

Definition image_world : world :=
  serve [("https://pbs.twimg.com/media/A.jpg", Return (ok_response "JPEG"))] [].

(** A videos file of one line and its landing page. *)
Definition tweet : string := "https://twitter.com/u/status/1".

Definition tweet_lines : list video_line := [ {| video_url_field := tweet |} ].

Definition tweet_row : video_row :=
  {| video_url := PyStr tweet; video_hash := PyStr (hash_url tweet) |}.

Definition landing_url : string :=
  "https://twitsave.com/info?url=https://twitter.com/u/status/1".

Definition landing_request : request :=
  {| req_url := PyStr landing_url; req_stream := false |}.

(** Worlds for the landing page: the site answers with its error page; the
    site is unreachable; the page lists the anchors [hrefs]. *)
Definition missing_container_world : world :=
  serve [(landing_url, Return (ok_response "sorry"))] [("sorry", error_page)].

Definition unreachable_world : world := serve [] [].

Definition landing_world (hrefs : list (option string)) : world :=
  serve [(landing_url, Return (ok_response "page"))] [("page", landing_page hrefs)].

(** A world whose server answers the image URL with [300 Multiple Choices]
    and a body: a status that is not 2xx and that [raise_for_status] lets
    pass. *)
Definition multiple_choices_world : world :=
  serve [("https://pbs.twimg.com/media/A.jpg",
          Return (status_response 300 "<html>choices</html>"))] [].

(** A response that declares [declared] as its [Content-Length] and
    delivers [body]. *)
Definition declared_response (declared : string) (body : string) : response :=
  {| status_code := 200;
     headers := {[ "content-length" := declared ]};
     content := list_byte_of_string body;
     broken := None |}.

Definition video_world (r : response) : world :=
  serve [("https://cdn/hd.mp4", Return r)] [].






(** ** A weakest-precondition reading of the monad *)

(** [wp m s Q]: running [m] from [s] ends in a state and a result that
    satisfy [Q]. *)
Definition wp {A} (m : M A) (s : state) (Q : state -> pyresult A -> Prop) : Prop :=
  Q (m s).1 (m s).2.

(** What a call does to the files when it is gated by the existence of
    [path]: nothing when the file is there; otherwise the file appears with
    content [c] ([eff = Some c]) or nothing happens ([eff = None]). *)
Definition gated_write (path : string) (eff : option (list Byte.byte))
    (fs : gmap string (list Byte.byte)) : gmap string (list Byte.byte) :=
  match fs !! path with
  | Some _ => fs
  | None =>
      match eff with
      | Some c => <[path := c]> fs
      | None => fs
      end
  end.

Definition gated_writer_at {A} (path : string) (m : M A) : Prop :=
  exists eff, forall s, files (m s).1 = gated_write path eff (files s).

Definition gated_writer {A} (m : M A) : Prop :=
  exists path, gated_writer_at path m.

(** The record an [except] pair of [download_image] and [download_video]
    writes for an exception. *)
Definition error_record (e : exn) : log_record :=
  (ERROR, if isinstance_HTTPError e then HttpErrorOccurred e else ErrorOccurred e).

(** What [extract_highest_quality_video_url] returns or raises: the result
    does not depend on the state the call starts from. *)
Definition resolved (w : world) (api : string) : pyresult pyval :=
  (extract_highest_quality_video_url w api empty_state).2.

(** The calls the loop of [download_videos] submits when the files are
    [fs]: one per row whose target is missing and whose page resolves. *)
Definition pending (w : world) (download_dir : string)
    (fs : gmap string (list Byte.byte)) (rows : list video_row) : list video_call :=
  flat_map
    (fun row =>
       match fs !! video_path download_dir (video_hash row) with
       | Some _ => []
       | None =>
           match resolved w (api_url (video_url row)) with
           | Return highest_quality_url =>
               [ {| call_url := highest_quality_url;
                    call_hash := video_hash row;
                    call_dir := download_dir |} ]
           | Raise _ => []
           end
       end)
    rows.

(** ** Notions used by the further properties *)

(** One of [0-9a-f]. *)
Definition is_hex_char (c : ascii) : bool :=
  let n := nat_of_ascii c in
  (((48 <=? n) && (n <=? 57)) || ((97 <=? n) && (n <=? 102)))%nat.

(** A response whose transfer breaks after [body] has arrived. *)
Definition broken_response (body : string) (e : exn) : response :=
  {| status_code := 200; headers := ∅; content := list_byte_of_string body;
     broken := Some e |}.

(** The world of [image_world] on a disk where every write fails. *)
Definition full_disk_world : world :=
  {| http_get := http_get image_world;
     html_parser := html_parser image_world;
     open_wb := fun _ => None;
     file_write := fun _ _ => Some OSError |}.

(** Two lines with different URLs and the same [image_hash]. *)
Definition shared_hash_lines : list image_line :=
  [ {| image_url_field := "https://pbs.twimg.com/media/A.jpg"; image_hash_field := "h1" |};
    {| image_url_field := "https://pbs.twimg.com/media/B.jpg"; image_hash_field := "h1" |} ].

Definition row_A : image_row :=
  {| image_url := PyStr "https://pbs.twimg.com/media/A.jpg"; image_hash := PyStr "h1" |}.

Definition row_B : image_row :=
  {| image_url := PyStr "https://pbs.twimg.com/media/B.jpg"; image_hash := PyStr "h1" |}.

(** The landing page of [landing_world], answered with the status 404. *)
Definition not_found_landing_world (hrefs : list (option string)) : world :=
  serve [(landing_url, Return (status_response 404 "page"))] [("page", landing_page hrefs)].

(** The request [download_image] makes for a row, and the records of a
    skipped image and of a skipped video. *)
Definition image_request (row : image_row) : request :=
  {| req_url := image_url row; req_stream := false |}.

Definition image_skipped (dir : string) (row : image_row) : log_record :=
  (INFO, ImageAlreadyExists (image_path dir (image_hash row))).

Definition video_skipped (dir : string) (row : video_row) : log_record :=
  (INFO, VideoAlreadyExists (video_path dir (video_hash row))).



(** * Properties *)

(** ** [hash_url] on known digests *)

Example hash_url_empty : hash_url "" = "d41d8cd98f00b204e9800998ecf8427e".
Proof. vm_compute. reflexivity. Qed.

Example hash_url_abc : hash_url "abc" = "900150983cd24fb0d6963f7d28e17f72".
Proof. vm_compute. reflexivity. Qed.

Example hash_url_two_blocks :
  hash_url "https://twitter.com/i/status/1234567890123456789/video/1?tag=12&x=abcdefghijklmnopqrstuvwxyz"
  = "9890915fc493c79779458af79a0abb1a".
Proof. vm_compute. reflexivity. Qed.


(** ** The frame operations *)

Section Frames.

Context {R : Type} (col : R -> pyval).

Lemma elem_of_dropna (df : list R) (r : R) :
  r ∈ dropna col df <-> r ∈ df /\ pd_notna (col r) = true.
Proof.
  unfold dropna. rewrite !list_elem_of_In. apply filter_In.
Qed.

Lemma dropna_app (l1 l2 : list R) :
  dropna col (l1 ++ l2) = dropna col l1 ++ dropna col l2.
Proof. apply List.filter_app. Qed.

(** A row of the filtered frame splits the unfiltered frame at the same row. *)
Lemma dropna_split (df : list R) :
  forall k1 r k2,
    dropna col df = k1 ++ r :: k2 ->
    exists l1 l2, df = l1 ++ r :: l2 /\ dropna col l1 = k1 /\ dropna col l2 = k2.
Proof.
  unfold dropna.
  induction df as [|x df IH]; intros k1 r k2 E.
  - destruct k1; discriminate.
  - cbn in E. destruct (pd_notna (col x)) eqn:Hx.
    + destruct k1 as [|y k1]; cbn in E; injection E as Exy E; subst.
      * exists [], df. cbn. auto.
      * destruct (IH _ _ _ E) as (l1 & l2 & -> & H1 & H2).
        exists (y :: l1), l2. cbn. rewrite Hx, H1, H2. auto.
    + destruct (IH _ _ _ E) as (l1 & l2 & -> & H1 & H2).
      exists (x :: l1), l2. cbn. rewrite Hx, H1, H2. auto.
Qed.

Lemma elem_of_drop_duplicates_from (df : list R) :
  forall seen r,
    r ∈ drop_duplicates_from col seen df -> r ∈ df /\ col r ∉ seen.
Proof.
  induction df as [|x df IH]; intros seen r; cbn.
  - intros H. inversion H.
  - case_bool_decide as Hx.
    + intros H. destruct (IH _ _ H). split; [by right | done].
    + intros [->|H]%elem_of_cons.
      * split; [by left | done].
      * destruct (IH _ _ H) as [H1 H2]. split; [by right |].
        intros Hs. apply H2. by right.
Qed.

Lemma drop_duplicates_from_covers (df : list R) :
  forall seen r,
    r ∈ df -> col r ∉ seen -> col r ∈ col <$> drop_duplicates_from col seen df.
Proof.
  induction df as [|x df IH]; intros seen r Hin Hs; cbn.
  - inversion Hin.
  - apply elem_of_cons in Hin as [->|Hin].
    + rewrite bool_decide_eq_false_2 by done. cbn. by left.
    + case_bool_decide as Hx; [by apply IH |].
      cbn. destruct (decide (col r = col x)) as [->|Hne]; [by left |].
      right. apply IH; [done |]. by intros [?|?]%elem_of_cons.
Qed.

Lemma drop_duplicates_from_NoDup (df : list R) :
  forall seen, NoDup (col <$> drop_duplicates_from col seen df).
Proof.
  induction df as [|x df IH]; intros seen; cbn.
  - constructor.
  - case_bool_decide as Hx; [apply IH |].
    cbn. constructor; [| apply IH].
    intros (r & E & Hr)%list_elem_of_fmap.
    apply elem_of_drop_duplicates_from in Hr as [_ Hr].
    apply Hr. rewrite <- E. by left.
Qed.

(** The row kept for a value is the first row of the frame that has it. *)
Lemma drop_duplicates_from_first (df : list R) :
  forall seen r,
    r ∈ drop_duplicates_from col seen df ->
    exists l1 l2, df = l1 ++ r :: l2 /\ forall r', r' ∈ l1 -> col r' <> col r.
Proof.
  induction df as [|x df IH]; intros seen r; cbn.
  - intros H. inversion H.
  - case_bool_decide as Hx.
    + intros H. pose proof (elem_of_drop_duplicates_from _ _ _ H) as [_ Hs].
      destruct (IH _ _ H) as (l1 & l2 & -> & Hl).
      exists (x :: l1), l2. split; [done |].
      intros r' [->|Hr']%elem_of_cons; [congruence | by apply Hl].
    + intros [->|H]%elem_of_cons.
      * exists [], df. split; [done |]. intros r' Hr'. inversion Hr'.
      * pose proof (elem_of_drop_duplicates_from _ _ _ H) as [_ Hs].
        destruct (IH _ _ H) as (l1 & l2 & -> & Hl).
        exists (x :: l1), l2. split; [done |].
        intros r' [->|Hr']%elem_of_cons; [| by apply Hl].
        intros E. apply Hs. rewrite E. by left.
Qed.

Lemma dedup_notna (df : list R) (r : R) : r ∈ dedup col df -> pd_notna (col r) = true.
Proof.
  unfold dedup, drop_duplicates.
  intros H. apply elem_of_drop_duplicates_from in H as [H _].
  by apply elem_of_dropna in H as [_ H].
Qed.

Lemma dedup_values (df : list R) (v : pyval) :
  v ∈ col <$> dedup col df <-> pd_notna v = true /\ v ∈ col <$> df.
Proof.
  split.
  - intros (r & -> & Hr)%list_elem_of_fmap. split; [by eapply dedup_notna |].
    unfold dedup, drop_duplicates in Hr.
    apply elem_of_drop_duplicates_from in Hr as [Hr _].
    apply elem_of_dropna in Hr as [Hr _]. by apply list_elem_of_fmap_2.
  - intros [Hv (r & -> & Hr)%list_elem_of_fmap].
    unfold dedup, drop_duplicates.
    apply drop_duplicates_from_covers; [by apply elem_of_dropna | by inversion 1].
Qed.

Lemma dedup_first (df : list R) (r : R) :
  r ∈ dedup col df ->
  exists l1 l2, df = l1 ++ r :: l2 /\ forall r', r' ∈ l1 -> col r' <> col r.
Proof.
  intros H. pose proof (dedup_notna _ _ H) as Hr.
  unfold dedup, drop_duplicates in H.
  apply drop_duplicates_from_first in H as (k1 & k2 & E & Hk).
  apply dropna_split in E as (l1 & l2 & -> & <- & _).
  exists l1, l2. split; [done |]. intros r' Hr' E.
  apply (Hk r'); [| done]. apply elem_of_dropna. split; [done | congruence].
Qed.

Lemma dedup_Permutation (df df' : list R) :
  df ≡ₚ df' -> col <$> dedup col df ≡ₚ col <$> dedup col df'.
Proof.
  intros HP. apply NoDup_Permutation; try apply drop_duplicates_from_NoDup.
  intros v. rewrite !dedup_values. by rewrite HP.
Qed.

End Frames.

(** ** Rules of the weakest precondition *)

Lemma state_eq (s1 s2 : state) :
  files s1 = files s2 -> log s1 = log s2 -> requests s1 = requests s2 ->
  progress s1 = progress s2 -> s1 = s2.
Proof. destruct s1, s2; simpl; intros; by subst. Qed.

Section Wp.

Context {A : Type}.

Lemma wp_run (m : M A) s Q : wp m s Q -> forall s' r, m s = (s', r) -> Q s' r.
Proof. unfold wp. intros H s' r E. by rewrite E in H. Qed.

Lemma wp_mono (m : M A) s (Q Q' : state -> pyresult A -> Prop) :
  wp m s Q -> (forall s' r, Q s' r -> Q' s' r) -> wp m s Q'.
Proof. unfold wp. auto. Qed.

Lemma wp_and (m : M A) s (Q Q' : state -> pyresult A -> Prop) :
  wp m s Q -> wp m s Q' -> wp m s (fun s' r => Q s' r /\ Q' s' r).
Proof. unfold wp. auto. Qed.

Lemma wp_ret (a : A) s Q : Q s (Return a) -> wp (ret a) s Q.
Proof. done. Qed.

Lemma wp_raise e s (Q : state -> pyresult A -> Prop) : Q s (Raise e) -> wp (raise e) s Q.
Proof. done. Qed.

Lemma wp_bind {B} (m : M B) (k : B -> M A) s Q :
  wp m s (fun s1 r =>
            match r with
            | Return b => wp (k b) s1 Q
            | Raise e => Q s1 (Raise e)
            end) ->
  wp (bind m k) s Q.
Proof. unfold wp, bind. by destruct (m s) as [s1 [b|e]]. Qed.

Lemma wp_try_except (body : M A) clauses s Q :
  wp body s (fun s1 r =>
               match r with
               | Return a => Q s1 (Return a)
               | Raise e =>
                   match List.find (fun c => catches c e) clauses with
                   | Some c => wp (handler c e) s1 Q
                   | None => Q s1 (Raise e)
                   end
               end) ->
  wp (try_except body clauses) s Q.
Proof.
  unfold wp, try_except. destruct (body s) as [s1 [a|e]]; [done |].
  simpl. by destruct (List.find _ clauses).
Qed.

End Wp.

Lemma wp_logging_info m s Q : Q (add_log (INFO, m) s) (Return tt) -> wp (logging_info m) s Q.
Proof. done. Qed.

Lemma wp_logging_error m s Q : Q (add_log (ERROR, m) s) (Return tt) -> wp (logging_error m) s Q.
Proof. done. Qed.

Lemma wp_os_path_exists path s Q :
  Q s (Return (bool_decide (is_Some (files s !! path)))) -> wp (os_path_exists path) s Q.
Proof. done. Qed.

Lemma wp_tqdm_new total desc s Q :
  Q (add_progress (TqdmNew total desc) s) (Return tt) -> wp (tqdm_new total desc) s Q.
Proof. done. Qed.

Lemma wp_tqdm_update n s Q :
  Q (add_progress (TqdmUpdate n) s) (Return tt) -> wp (tqdm_update n) s Q.
Proof. done. Qed.

Lemma wp_tqdm_close s Q : Q (add_progress TqdmClose s) (Return tt) -> wp tqdm_close s Q.
Proof. done. Qed.

Section Wp_world.

Context (w : world).

Lemma wp_requests_get url stream s Q :
  Q (add_request {| req_url := url; req_stream := stream |} s) (response_of w url stream) ->
  wp (requests_get w url stream) s Q.
Proof. done. Qed.

Lemma wp_raise_for_status r s Q :
  (if is_error_status (status_code r)
   then Q s (Raise (HTTPError (status_code r)))
   else Q s (Return tt)) ->
  wp (raise_for_status r) s Q.
Proof. unfold wp, raise_for_status. by destruct (is_error_status _). Qed.

Lemma wp_content_length r s Q :
  match headers r !! "content-length" with
  | None => Q s (Return 0%Z)
  | Some v =>
      match py_int v with
      | Some n => Q s (Return n)
      | None => Q s (Raise ValueError)
      end
  end ->
  wp (content_length r) s Q.
Proof.
  unfold wp, content_length. destruct (headers r !! _) as [v|]; [| done].
  by destruct (py_int v).
Qed.

Lemma wp_open_file path s Q :
  match open_wb w path with
  | Some e => Q s (Raise e)
  | None => Q (set_files (<[path := []]> (files s)) s) (Return tt)
  end ->
  wp (open_file w path) s Q.
Proof. unfold wp, open_file. by destruct (open_wb w path). Qed.

Lemma wp_write_file path data s Q :
  match file_write w path (length (default [] (files s !! path))) with
  | Some e => Q s (Raise e)
  | None =>
      Q (set_files (<[path := default [] (files s !! path) ++ data]> (files s)) s) (Return tt)
  end ->
  wp (write_file w path data) s Q.
Proof. unfold wp, write_file. simpl. by destruct (file_write w path _). Qed.

Lemma wp_index0 {A} (l : list A) s Q :
  match l with
  | x :: _ => Q s (Return x)
  | [] => Q s (Raise IndexError)
  end ->
  wp (index0 l) s Q.
Proof. by destruct l. Qed.

End Wp_world.

(** One step of symbolic execution. *)
Ltac wp_step :=
  lazymatch goal with
  | |- wp (bind _ _) _ _ => apply wp_bind
  | |- wp (try_except _ _) _ _ => apply wp_try_except
  | |- wp (ret _) _ _ => apply wp_ret
  | |- wp (raise _) _ _ => apply wp_raise
  | |- wp (logging_info _) _ _ => apply wp_logging_info
  | |- wp (logging_error _) _ _ => apply wp_logging_error
  | |- wp (os_path_exists _) _ _ => apply wp_os_path_exists
  | |- wp (tqdm_new _ _) _ _ => apply wp_tqdm_new
  | |- wp (tqdm_update _) _ _ => apply wp_tqdm_update
  | |- wp tqdm_close _ _ => apply wp_tqdm_close
  | |- wp (requests_get _ _ _) _ _ => apply wp_requests_get
  | |- wp (raise_for_status _) _ _ => apply wp_raise_for_status
  | |- wp (content_length _) _ _ => apply wp_content_length
  | |- wp (open_file _ _) _ _ => apply wp_open_file
  | |- wp (write_file _ _ _) _ _ => apply wp_write_file
  | |- wp (index0 _) _ _ => apply wp_index0
  | |- wp (handler _ _) _ _ => simpl handler
  | |- wp (if ?b then _ else _) _ _ => destruct b eqn:?
  | |- wp (match ?x with _ => _ end) _ _ => destruct x eqn:?
  | |- match List.find _ _ with _ => _ end =>
      cbn [List.find catches except_HTTPError except_Exception]
  | |- match (if ?b then _ else _) with _ => _ end => destruct b eqn:?
  | |- match ?x with _ => _ end => destruct x eqn:?
  end.

Ltac wp_steps := repeat (wp_step; simpl).

Lemma wp_eq {A} (m : M A) s s' r :
  wp m s (fun s1 r1 => s1 = s' /\ r1 = r) -> m s = (s', r).
Proof. unfold wp. destruct (m s) as [s1 r1]. simpl. by intros [-> ->]. Qed.

Lemma is_error_status_true status :
  (400 <= status < 600)%Z -> is_error_status status = true.
Proof. intros H. apply andb_true_iff. split; [apply Z.leb_le | apply Z.ltb_lt]; lia. Qed.

Lemma is_error_status_false status :
  ~ (400 <= status < 600)%Z -> is_error_status status = false.
Proof.
  intros H. apply andb_false_iff.
  destruct (Z.leb_spec 400 status); [right | by left]. apply Z.ltb_ge. lia.
Qed.

(** The error record of a caught exception, read off the goal. *)
Ltac caught_record :=
  lazymatch goal with
  | |- exists e, (ERROR, HttpErrorOccurred ?x) = _ => exists x
  | |- exists e, (ERROR, ErrorOccurred ?x) = _ => exists x
  end;
  simpl;
  repeat match goal with
         | H : isinstance_HTTPError _ = _ |- _ => rewrite H
         end;
  done.

(** ** [download_image] *)

Section Download_image.

Context (w : world).

(** The existence gate: the file is there, nothing but a log line happens. *)
Lemma download_image_exists url h dir s :
  is_Some (files s !! image_path dir h) ->
  download_image w url h dir s
  = (add_log (INFO, ImageAlreadyExists (image_path dir h)) s, Return tt).
Proof.
  intros H. unfold download_image. apply wp_eq.
  wp_step. wp_step. rewrite bool_decide_eq_true_2 by done. by wp_step.
Qed.

(** The failures before the file is opened: each one is caught and logged
    and the files are untouched. *)
Lemma download_image_fails url h dir s e :
  files s !! image_path dir h = None ->
  response_of w url false = Raise e ->
  download_image w url h dir s
  = (add_log (error_record e) (add_request {| req_url := url; req_stream := false |} s),
     Return tt).
Proof.
  intros Hs Hget. unfold download_image, error_record. apply wp_eq.
  wp_step. wp_step. rewrite bool_decide_eq_false_2 by (rewrite Hs; by intros [? ?]).
  wp_step. wp_step. wp_step. rewrite Hget. wp_steps; done.
Qed.

Lemma download_image_http_error url h dir s r :
  files s !! image_path dir h = None ->
  response_of w url false = Return r ->
  (400 <= status_code r < 600)%Z ->
  download_image w url h dir s
  = (add_log (ERROR, HttpErrorOccurred (HTTPError (status_code r)))
       (add_request {| req_url := url; req_stream := false |} s), Return tt).
Proof.
  intros Hs Hget Hst. unfold download_image. apply wp_eq.
  wp_step. wp_step. rewrite bool_decide_eq_false_2 by (rewrite Hs; by intros [? ?]).
  wp_step. wp_step. wp_step. rewrite Hget. wp_step. wp_step.
  rewrite is_error_status_true by done. wp_steps; done.
Qed.

(** The success: the body is written to the target, whole. *)
Lemma download_image_saved url h dir s r :
  files s !! image_path dir h = None ->
  response_of w url false = Return r ->
  ~ (400 <= status_code r < 600)%Z ->
  open_wb w (image_path dir h) = None ->
  file_write w (image_path dir h) 0 = None ->
  download_image w url h dir s
  = (add_log (INFO, ImageSaved (image_path dir h))
       (set_files (<[image_path dir h := content r]> (files s))
          (add_request {| req_url := url; req_stream := false |} s)), Return tt).
Proof.
  intros Hs Hget Hst Hopen Hwr. unfold download_image. apply wp_eq.
  wp_step. wp_step. rewrite bool_decide_eq_false_2 by (rewrite Hs; by intros [? ?]).
  wp_step. wp_step. wp_step. rewrite Hget. wp_step. wp_step.
  rewrite is_error_status_false by done. wp_step. wp_step. rewrite Hopen.
  wp_step. wp_step. simpl. rewrite lookup_insert_eq. simpl. rewrite Hwr.
  wp_step. split; [| done]. apply state_eq; simpl; try done.
  by rewrite insert_insert_eq.
Qed.


Lemma download_image_write_fails url h dir s r e :
  files s !! image_path dir h = None ->
  response_of w url false = Return r ->
  ~ (400 <= status_code r < 600)%Z ->
  open_wb w (image_path dir h) = None ->
  file_write w (image_path dir h) 0 = Some e ->
  download_image w url h dir s
  = (add_log (error_record e)
       (set_files (<[image_path dir h := []]> (files s))
          (add_request {| req_url := url; req_stream := false |} s)), Return tt).
Proof.
  intros Hs Hget Hst Hopen Hwr. unfold download_image, error_record. apply wp_eq.
  wp_step. wp_step. rewrite bool_decide_eq_false_2 by (rewrite Hs; by intros [? ?]).
  wp_step. wp_step. wp_step. rewrite Hget. wp_step. wp_step.
  rewrite is_error_status_false by done. wp_step. wp_step. rewrite Hopen.
  wp_step. wp_step. simpl. rewrite lookup_insert_eq. simpl. rewrite Hwr.
  wp_steps; done.
Qed.

(** Whatever happens, the call returns and has written one log record:
    skipped, saved, or the error it caught. *)
Lemma download_image_returns url h dir s :
  wp (download_image w url h dir) s
     (fun s' r =>
        r = Return tt /\
        exists rec, log s' = log s ++ [rec] /\
          (rec = (INFO, ImageAlreadyExists (image_path dir h)) \/
           rec = (INFO, ImageSaved (image_path dir h)) \/
           exists e, rec = error_record e)).
Proof.
  unfold download_image, error_record. wp_steps; split; try done; eexists; split; try done.
  all: try (by left); try (by right; left).
  all: right; right; caught_record.
Qed.

Lemma download_image_gated_at url h dir :
  gated_writer_at (image_path dir h) (download_image w url h dir).
Proof.
  set (p := image_path dir h).
  exists
    match response_of w url false with
    | Raise _ => None
    | Return r =>
        if is_error_status (status_code r) then None
        else match open_wb w p with
             | Some _ => None
             | None =>
                 match file_write w p 0 with
                 | Some _ => Some []
                 | None => Some (content r)
                 end
             end
    end.
  intros s. change (wp (download_image w url h dir) s
                      (fun s' _ => files s' = gated_write p
                         match response_of w url false with
                         | Raise _ => None
                         | Return r =>
                             if is_error_status (status_code r) then None
                             else match open_wb w p with
                                  | Some _ => None
                                  | None =>
                                      match file_write w p 0 with
                                      | Some _ => Some []
                                      | None => Some (content r)
                                      end
                                  end
                         end (files s))).
  unfold download_image, gated_write. fold p.
  wp_step. wp_step. case_bool_decide as Hp.
  { destruct Hp as [c Hc]. rewrite Hc. by wp_step. }
  assert (files s !! p = None) as Hn by (by destruct (files s !! p); [exfalso; eauto |]).
  rewrite Hn. wp_step. wp_step. wp_step.
  destruct (response_of w url false) as [r|e]; [| wp_steps; done].
  wp_step. wp_step.
  destruct (is_error_status (status_code r)); [wp_steps; done |].
  wp_step. wp_step. destruct (open_wb w p); [wp_steps; done |].
  wp_step. wp_step. simpl. rewrite lookup_insert_eq. simpl.
  destruct (file_write w p 0); wp_steps; try done.
  by rewrite insert_insert_eq.
Qed.

Lemma download_image_gated url h dir : gated_writer (download_image w url h dir).
Proof. eexists. apply download_image_gated_at. Qed.

End Download_image.

(** ** [iter_content] *)

Section Iter_content.

Context (n : nat) (Hn : 0 < n).


Lemma concat_iter_content_fuel fuel :
  forall body, length body <= fuel -> concat (iter_content_fuel fuel n body) = body.
Proof.
  induction fuel as [|fuel IH]; intros body Hlen.
  - destruct body; [done | simpl in Hlen; lia].
  - destruct body as [|b body]; [done |].
    cbn [iter_content_fuel concat]. rewrite IH; [apply take_drop |].
    rewrite length_drop. simpl in *. lia.
Qed.



Lemma concat_iter_content body : concat (iter_content n body) = body.
Proof. by apply concat_iter_content_fuel. Qed.




End Iter_content.


(** ** The chunk loop of [download_video] *)

Section Write_chunks.

Context (w : world) (p : string).

(** The loop touches neither the log nor the requests, and whatever it
    writes goes to the open file, as a function of the world alone. *)
Lemma write_chunks_keeps chunks :
  forall old, exists c',
    forall s, files s !! p = Some old ->
      wp (write_chunks w p chunks) s
         (fun s' _ => files s' = <[p := c']> (files s) /\ log s' = log s /\
                      requests s' = requests s).
Proof.
  induction chunks as [|data chunks IH]; intros old.
  - exists old. intros s Hs. simpl. wp_step. by rewrite insert_id.
  - destruct (file_write w p (length old)) as [e|] eqn:Hwr.
    + exists old. intros s Hs. simpl. wp_step. wp_step. simpl. wp_step. wp_step.
      simpl. rewrite Hs. simpl. rewrite Hwr. by rewrite insert_id.
    + destruct (IH (old ++ data)) as [c' Hc']. exists c'. intros s Hs.
      simpl. wp_step. wp_step. simpl. wp_step. wp_step.
      simpl. rewrite Hs. simpl. rewrite Hwr.
      eapply wp_mono; [apply Hc'; simpl; apply lookup_insert_eq |].
      simpl. intros s' _ (-> & -> & ->). by rewrite insert_insert_eq.
Qed.

(** On a disk that takes every write the loop appends all the chunks and
    reports each one to the progress bar. *)
Lemma write_chunks_ok chunks :
  (forall offset, file_write w p offset = None) ->
  forall old s, files s !! p = Some old ->
    write_chunks w p chunks s
    = ({| files := <[p := old ++ concat chunks]> (files s);
          log := log s;
          requests := requests s;
          progress := progress s ++ ((fun c => TqdmUpdate (length c)) <$> chunks) |},
       Return tt).
Proof.
  intros Hwr. induction chunks as [|data chunks IH]; intros old s Hs.
  - simpl. unfold ret. f_equal. apply state_eq; simpl; try done.
    + rewrite app_nil_r. by rewrite insert_id.
    + by rewrite app_nil_r.
  - simpl. apply wp_eq. wp_step. wp_step. simpl. wp_step. wp_step.
    simpl. rewrite Hs. simpl. rewrite Hwr.
    unfold wp. erewrite IH by (simpl; apply lookup_insert_eq). simpl.
    split; [| done]. apply state_eq; simpl; try done.
    + rewrite insert_insert_eq. by rewrite <- app_assoc.
    + by rewrite <- app_assoc.
Qed.

End Write_chunks.

(** ** [download_video] *)

Lemma gated_writer_intro {A} (m : M A) path eff :
  (forall s, is_Some (files s !! path) -> files (m s).1 = files s) ->
  (forall s, files s !! path = None ->
     files (m s).1 = match eff with
                     | Some c => <[path := c]> (files s)
                     | None => files s
                     end) ->
  gated_writer_at path m.
Proof.
  intros H1 H2. exists eff. intros s. unfold gated_write.
  destruct (files s !! path) eqn:Hs; [apply H1; eauto | by apply H2].
Qed.

(** The existence test fails: the [else] branch runs. *)
Ltac open_gate Hs :=
  wp_step; wp_step; rewrite bool_decide_eq_false_2 by (rewrite Hs; by intros [? ?]).

Section Download_video.

Context (w : world).

Lemma download_video_exists url h dir s :
  is_Some (files s !! video_path dir h) ->
  download_video w url h dir s
  = (add_log (INFO, VideoAlreadyExists (video_path dir h)) s, Return tt).
Proof.
  intros H. unfold download_video. apply wp_eq.
  wp_step. wp_step. rewrite bool_decide_eq_true_2 by done. by wp_step.
Qed.

(** The failures before the file is opened: caught and logged. *)
Lemma download_video_fails url h dir s e :
  files s !! video_path dir h = None ->
  response_of w url true = Raise e ->
  download_video w url h dir s
  = (add_log (error_record e) (add_request {| req_url := url; req_stream := true |} s),
     Return tt).
Proof.
  intros Hs Hget. unfold download_video, error_record. apply wp_eq. open_gate Hs.
  wp_step. wp_step. wp_step. rewrite Hget. wp_steps; done.
Qed.


(** Whatever happens, the call returns and has written one log record:
    skipped, saved, or the error it caught. *)
Lemma download_video_returns url h dir s :
  wp (download_video w url h dir) s
     (fun s' r =>
        r = Return tt /\
        exists rec, log s' = log s ++ [rec] /\
          (rec = (INFO, VideoAlreadyExists (video_path dir h)) \/
           rec = (INFO, VideoSaved (video_path dir h)) \/
           exists e, rec = error_record e)).
Proof.
  unfold download_video, error_record. set (p := video_path dir h).
  assert (forall s0 (rec : log_record),
            log s0 = log s ->
            (rec = (INFO, VideoAlreadyExists p) \/ rec = (INFO, VideoSaved p) \/
             exists e, rec = (ERROR, if isinstance_HTTPError e then HttpErrorOccurred e
                                     else ErrorOccurred e)) ->
            Return tt = Return tt /\
            exists rec0, log (add_log rec s0) = log s ++ [rec0] /\
              (rec0 = (INFO, VideoAlreadyExists p) \/ rec0 = (INFO, VideoSaved p) \/
               exists e, rec0 = (ERROR, if isinstance_HTTPError e then HttpErrorOccurred e
                                        else ErrorOccurred e))) as Hfin.
  { intros s0 rec Hl Hrec. split; [done |]. exists rec. simpl. by rewrite Hl. }
  wp_step. wp_step. case_bool_decide as Hp; [wp_step; apply Hfin; auto |].
  wp_step. wp_step. wp_step.
  destruct (response_of w url true) as [r|e];
    [| wp_steps; apply Hfin; try done; right; right; caught_record].
  wp_step. wp_step.
  destruct (is_error_status (status_code r));
    [wp_steps; apply Hfin; try done; right; right; caught_record |].
  wp_step. wp_step.
  destruct (headers r !! "content-length") as [v|]; [destruct (py_int v) |].
  2: wp_steps; apply Hfin; try done; right; right; caught_record.
  all: wp_step; wp_step; simpl; wp_step; wp_step.
  all: destruct (open_wb w p);
         [wp_steps; apply Hfin; try done; right; right; caught_record |].
  all: destruct (write_chunks_keeps w p (iter_content block_size (content r)) [])
         as [c' Hc'].
  all: wp_step; eapply wp_mono; [apply Hc'; simpl; apply lookup_insert_eq |].
  all: simpl; intros s' [[]|e] (_ & Hl & _).
  all: wp_steps; apply Hfin; try done; auto; right; right; caught_record.
Qed.


Lemma download_video_gated_at url h dir :
  gated_writer_at (video_path dir h) (download_video w url h dir).
Proof.
  set (p := video_path dir h).
  assert (forall s, is_Some (files s !! p) ->
                    files (download_video w url h dir s).1 = files s) as Hex.
  { intros s Hs. by rewrite download_video_exists. }
  assert (forall eff,
    (forall s, files s !! p = None ->
       wp (download_video w url h dir) s
          (fun s' _ => files s' = match eff with
                                  | Some c => <[p := c]> (files s)
                                  | None => files s
                                  end)) ->
    gated_writer_at p (download_video w url h dir)) as Hintro.
  { intros eff H. by apply (gated_writer_intro _ p eff). }
  unfold download_video in Hintro |- *. fold p in Hintro |- *.
  destruct (response_of w url true) as [r|e] eqn:Hr.
  2: { apply (Hintro None). intros s Hs. open_gate Hs.
       wp_step. wp_step. wp_step. rewrite Hr. wp_steps; done. }
  destruct (is_error_status (status_code r)) eqn:Hst.
  { apply (Hintro None). intros s Hs. open_gate Hs.
    wp_step. wp_step. wp_step. rewrite Hr. wp_step. wp_step. rewrite Hst.
    wp_steps; done. }
  assert (exists total : pyresult Z, forall s, content_length r s = (s, total)) as [total Ht].
  { unfold content_length. destruct (headers r !! "content-length") as [v|]; [| by eexists].
    destruct (py_int v); by eexists. }
  destruct total as [total|e].
  2: { apply (Hintro None). intros s Hs. open_gate Hs.
       wp_step. wp_step. wp_step. rewrite Hr. wp_step. wp_step. rewrite Hst.
       wp_step. unfold wp at 1. rewrite Ht. simpl. wp_steps; done. }
  destruct (open_wb w p) as [e|] eqn:Hopen.
  { apply (Hintro None). intros s Hs. open_gate Hs.
    wp_step. wp_step. wp_step. rewrite Hr. wp_step. wp_step. rewrite Hst.
    wp_step. unfold wp at 1. rewrite Ht. simpl.
    wp_step. wp_step. simpl. wp_step. wp_step. rewrite Hopen. wp_steps; done. }
  destruct (write_chunks_keeps w p (iter_content block_size (content r)) []) as [c' Hc'].
  apply (Hintro (Some c')). intros s Hs. open_gate Hs.
  wp_step. wp_step. wp_step. rewrite Hr. wp_step. wp_step. rewrite Hst.
  wp_step. unfold wp at 1. rewrite Ht. simpl.
  wp_step. wp_step. simpl. wp_step. wp_step. rewrite Hopen.
  wp_step. eapply wp_mono; [apply Hc'; simpl; apply lookup_insert_eq |].
  simpl. intros s' [[]|e] (Hf & _ & _); rewrite insert_insert_eq in Hf.
  all: wp_steps; done.
Qed.

Lemma download_video_gated url h dir : gated_writer (download_video w url h dir).
Proof. eexists. apply download_video_gated_at. Qed.

(** The success: every chunk is reported and written, the file holds the
    whole body, whatever total the progress bar was given. *)
Lemma download_video_saved url h dir s r total :
  files s !! video_path dir h = None ->
  response_of w url true = Return r ->
  ~ (400 <= status_code r < 600)%Z ->
  content_length r = ret total ->
  open_wb w (video_path dir h) = None ->
  (forall offset, file_write w (video_path dir h) offset = None) ->
  broken r = None ->
  download_video w url h dir s
  = ({| files := <[video_path dir h := content r]> (files s);
        log := log s ++ [(INFO, VideoSaved (video_path dir h))];
        requests := requests s ++ [ {| req_url := url; req_stream := true |} ];
        progress :=
          progress s
          ++ TqdmNew total ("Downloading " +:+ video_path dir h)
             :: ((fun c => TqdmUpdate (length c)) <$> iter_content block_size (content r))
          ++ [TqdmClose] |},
     Return tt).
Proof.
  intros Hs Hr Hst Ht Hopen Hwr Hb. unfold download_video.
  set (p := video_path dir h) in *. apply wp_eq. open_gate Hs.
  wp_step. wp_step. wp_step. rewrite Hr. wp_step. wp_step.
  rewrite is_error_status_false by done. wp_step. rewrite Ht. wp_step. simpl.
  wp_step. wp_step. simpl. wp_step. wp_step. rewrite Hopen.
  wp_step. unfold wp at 1.
  erewrite (write_chunks_ok w p _ Hwr []) by (simpl; apply lookup_insert_eq). simpl.
  wp_step. rewrite Hb. wp_step. simpl. wp_step. wp_step. simpl. wp_step.
  split; [| done]. apply state_eq; simpl; try done.
  - rewrite insert_insert_eq. by rewrite concat_iter_content by (unfold block_size; lia).
  - rewrite <- !app_assoc. simpl. done.
Qed.

End Download_video.

(** ** [extract_highest_quality_video_url] *)

Section Extract.

Context (w : world).

Lemma extract_run api s :
  extract_highest_quality_video_url w api s
  = (add_request {| req_url := PyStr api; req_stream := false |} s, resolved w api).
Proof.
  unfold resolved, extract_highest_quality_video_url.
  unfold bind, requests_get, index0, ret, raise. cbn -[response_of find_all].
  destruct (response_of w (PyStr api) false) as [r|e]; [| done].
  destruct (find_all (html_parser w (content r)) "div" (Some "origin-top-right"))
    as [|c cs]; [done |].
  by destruct (find_all c "a" None).
Qed.

(** The first anchor of the first marker container decides. *)
Lemma resolved_first api r c cs a rest :
  response_of w (PyStr api) false = Return r ->
  find_all (html_parser w (content r)) "div" (Some "origin-top-right") = c :: cs ->
  find_all c "a" None = a :: rest ->
  resolved w api = Return (tag_get a "href").
Proof.
  intros Hr Hc Ha. unfold resolved, extract_highest_quality_video_url.
  unfold bind, requests_get, index0, ret, raise. cbn -[response_of find_all]. by rewrite Hr, Hc, Ha.
Qed.

Lemma resolved_no_container api r :
  response_of w (PyStr api) false = Return r ->
  find_all (html_parser w (content r)) "div" (Some "origin-top-right") = [] ->
  resolved w api = Raise IndexError.
Proof.
  intros Hr Hc. unfold resolved, extract_highest_quality_video_url.
  unfold bind, requests_get, index0, ret, raise. cbn -[response_of find_all]. by rewrite Hr, Hc.
Qed.

Lemma resolved_no_anchor api r c cs :
  response_of w (PyStr api) false = Return r ->
  find_all (html_parser w (content r)) "div" (Some "origin-top-right") = c :: cs ->
  find_all c "a" None = [] ->
  resolved w api = Raise IndexError.
Proof.
  intros Hr Hc Ha. unfold resolved, extract_highest_quality_video_url.
  unfold bind, requests_get, index0, ret, raise. cbn -[response_of find_all]. by rewrite Hr, Hc, Ha.
Qed.

Lemma resolved_transport api e :
  response_of w (PyStr api) false = Raise e -> resolved w api = Raise e.
Proof.
  intros Hr. unfold resolved, extract_highest_quality_video_url.
  unfold bind, requests_get, index0, ret, raise. cbn -[response_of find_all]. by rewrite Hr.
Qed.

End Extract.

(** ** The loop of [download_videos] *)

Section Submit.

Context (w : world) (dir : string).

(** One iteration, by the three ways it can go. *)
Lemma submit_videos_skip row rows futures s :
  is_Some (files s !! video_path dir (video_hash row)) ->
  submit_videos w (row :: rows) dir futures s
  = submit_videos w rows dir futures
      (add_log (INFO, VideoAlreadyExists (video_path dir (video_hash row))) s).
Proof.
  intros H. cbn [submit_videos]. unfold bind at 1. unfold os_path_exists at 1.
  rewrite bool_decide_eq_true_2 by done. done.
Qed.

Lemma submit_videos_resolved row rows futures s url :
  files s !! video_path dir (video_hash row) = None ->
  resolved w (api_url (video_url row)) = Return url ->
  submit_videos w (row :: rows) dir futures s
  = submit_videos w rows dir
      (futures ++ [ {| call_url := url; call_hash := video_hash row; call_dir := dir |} ])
      (add_request {| req_url := PyStr (api_url (video_url row)); req_stream := false |} s).
Proof.
  intros Hs Hr. cbn [submit_videos]. unfold bind at 1. unfold os_path_exists at 1.
  rewrite bool_decide_eq_false_2 by (rewrite Hs; by intros [? ?]).
  unfold bind at 1, try_except at 1, bind at 1. rewrite extract_run, Hr. done.
Qed.

Lemma submit_videos_failed row rows futures s e :
  files s !! video_path dir (video_hash row) = None ->
  resolved w (api_url (video_url row)) = Raise e ->
  submit_videos w (row :: rows) dir futures s
  = submit_videos w rows dir futures
      (add_log (ERROR, ExtractErrorOccurred e)
         (add_request {| req_url := PyStr (api_url (video_url row)); req_stream := false |} s)).
Proof.
  intros Hs Hr. cbn [submit_videos]. unfold bind at 1. unfold os_path_exists at 1.
  rewrite bool_decide_eq_false_2 by (rewrite Hs; by intros [? ?]).
  unfold bind at 1, try_except at 1, bind at 1. rewrite extract_run, Hr. done.
Qed.

(** The loop never raises and writes no file; it submits [pending] and
    writes one log record for every row it does not submit. *)
Lemma submit_videos_run rows :
  forall futures s,
    exists s',
      submit_videos w rows dir futures s
      = (s', Return (futures ++ pending w dir (files s) rows)) /\
      files s' = files s /\ progress s' = progress s /\
      length (log s') + length (pending w dir (files s) rows)
      = length (log s) + length rows.
Proof.
  induction rows as [|row rows IH]; intros futures s.
  - exists s. simpl. rewrite app_nil_r. split; [done |]. repeat split; lia.
  - cbn [pending flat_map].
    destruct (files s !! video_path dir (video_hash row)) as [c|] eqn:Hs.
    + rewrite submit_videos_skip by (rewrite Hs; eauto).
      destruct (IH futures
                  (add_log (INFO, VideoAlreadyExists (video_path dir (video_hash row))) s))
        as (s' & -> & Hf & Hp & Hl).
      exists s'. simpl in *. fold (pending w dir (files s) rows) in *.
      rewrite length_app in Hl. simpl in Hl. repeat split; try done. lia.
    + destruct (resolved w (api_url (video_url row))) as [url|e] eqn:Hr.
      * rewrite (submit_videos_resolved _ _ _ _ url) by done.
        edestruct IH as (s' & -> & Hf & Hp & Hl).
        exists s'. simpl in *. fold (pending w dir (files s) rows) in *.
        rewrite <- app_assoc. simpl. repeat split; try done. lia.
      * rewrite (submit_videos_failed _ _ _ _ e) by done.
        edestruct IH as (s' & -> & Hf & Hp & Hl).
        exists s'. simpl in *. fold (pending w dir (files s) rows) in *.
        rewrite length_app in Hl. simpl in Hl. repeat split; try done. lia.
Qed.

Lemma elem_of_pending fs rows c :
  c ∈ pending w dir fs rows <->
  exists row, row ∈ rows /\ fs !! video_path dir (video_hash row) = None /\
    resolved w (api_url (video_url row)) = Return (call_url c) /\
    call_hash c = video_hash row /\ call_dir c = dir.
Proof.
  unfold pending. rewrite list_elem_of_In, in_flat_map. split.
  - intros (row & Hrow & Hc). exists row. rewrite list_elem_of_In. split; [done |].
    destruct (fs !! _); [by destruct Hc |].
    destruct (resolved _ _); [| by destruct Hc].
    destruct Hc as [<-|[]]. by simpl.
  - intros (row & Hrow & Hfs & Hr & Hh & Hd). exists row.
    rewrite <- list_elem_of_In. split; [done |]. rewrite Hfs, Hr.
    left. destruct c; simpl in *; by subst.
Qed.

End Submit.

(** ** Gated writers and the worker pool *)

Lemma gated_write_mono path eff (fs : gmap string (list Byte.byte)) :
  fs ⊆ gated_write path eff fs.
Proof.
  unfold gated_write. destruct (fs !! path) eqn:Hp; [done |].
  destruct eff; [by apply insert_subseteq | done].
Qed.

(** Once the files contain what a gated writer leaves, the writer changes
    nothing any more. *)
Lemma gated_write_fixed path eff (fs X : gmap string (list Byte.byte)) :
  gated_write path eff fs ⊆ X -> gated_write path eff X = X.
Proof.
  unfold gated_write. intros H.
  destruct (fs !! path) as [c|] eqn:Hp.
  - by rewrite (lookup_weaken _ _ _ _ Hp H).
  - destruct eff as [c|]; [| by destruct (X !! path)].
    assert (X !! path = Some c) as ->; [| done].
    eapply lookup_weaken; [apply lookup_insert_eq | done].
Qed.

Lemma gated_write_other path eff (fs : gmap string (list Byte.byte)) q :
  q <> path -> gated_write path eff fs !! q = fs !! q.
Proof.
  intros Hq. unfold gated_write. destruct (fs !! path); [done |].
  destruct eff; [by rewrite lookup_insert_ne | done].
Qed.

Section Pool.

Context {T : Type} (fn : T -> M unit).

Lemma executor_run_app calls1 calls2 s :
  executor_run fn (calls1 ++ calls2) s
  = let (s1, r1) := executor_run fn calls1 s in
    let (s2, r2) := executor_run fn calls2 s1 in
    (s2, r1 ++ r2).
Proof.
  revert s. induction calls1 as [|c calls1 IH]; intros s; simpl.
  - by destruct (executor_run fn calls2 s).
  - destruct (fn c s) as [s1 r]. rewrite IH.
    destruct (executor_run fn calls1 s1) as [s2 rs].
    by destruct (executor_run fn calls2 s2).
Qed.

Lemma results_returned (futures : list (pyresult unit)) s :
  Forall (fun r => r = Return tt) futures -> results futures s = (s, Return tt).
Proof. induction 1 as [|r rs -> _ IH]; [done | by simpl]. Qed.

(** When no call raises, nothing is raised again at the join. *)
Lemma join_pool_returns calls s :
  (forall c s', c ∈ calls -> (fn c s').2 = Return tt) ->
  join_pool fn calls s = ((executor_run fn calls s).1, Return tt).
Proof.
  intros H. unfold join_pool.
  assert (Forall (fun r => r = Return tt) (executor_run fn calls s).2) as Hall.
  { revert s. induction calls as [|c calls IH]; intros s; simpl; [constructor |].
    pose proof (H c s ltac:(by left)) as Hc. destruct (fn c s) as [s1 r]. simpl in Hc.
    specialize (IH ltac:(intros; apply H; by right) s1).
    destruct (executor_run fn calls s1). simpl in *. by constructor. }
  destruct (executor_run fn calls s) as [s' rs]. simpl in *. by apply results_returned.
Qed.


Lemma executor_run_files_mono calls s :
  (forall c, c ∈ calls -> gated_writer (fn c)) ->
  files s ⊆ files (executor_run fn calls s).1.
Proof.
  revert s. induction calls as [|c calls IH]; intros s H; simpl; [done |].
  destruct (H c ltac:(by left)) as (p & eff & Hc). specialize (Hc s).
  destruct (fn c s) as [s1 r]. simpl in Hc.
  specialize (IH s1 ltac:(intros; apply H; by right)).
  destruct (executor_run fn calls s1). simpl in *.
  etrans; [| done]. rewrite Hc. apply gated_write_mono.
Qed.

(** A call of a finished pool changes no file when it runs again on files
    that contain the pool's. *)
Lemma executor_run_fixed calls s X c s' :
  (forall c, c ∈ calls -> gated_writer (fn c)) ->
  c ∈ calls ->
  files (executor_run fn calls s).1 ⊆ X ->
  files s' = X ->
  files (fn c s').1 = X.
Proof.
  revert s. induction calls as [|c0 calls IH]; intros s H Hc HX Hs'; [by inversion Hc |].
  simpl in HX.
  pose proof (executor_run_files_mono calls (fn c0 s).1
                ltac:(intros; apply H; by right)) as Hmono.
  destruct (fn c0 s) as [s1 r] eqn:E0.
  destruct (executor_run fn calls s1) as [s2 rs] eqn:E1. simpl in *.
  apply elem_of_cons in Hc as [->|Hc].
  - destruct (H c0 ltac:(by left)) as (p & eff & Hg).
    rewrite Hg, Hs'. apply (gated_write_fixed _ _ (files s)).
    pose proof (Hg s) as Hg0. rewrite E0 in Hg0. simpl in Hg0. rewrite <- Hg0.
    rewrite E1 in Hmono. by etrans.
  - apply (IH s1); try done.
    + intros; apply H; by right.
    + by rewrite E1.
Qed.

(** A pool whose calls all leave the files [X] alone leaves them alone. *)
Lemma executor_run_id calls X :
  (forall c s', c ∈ calls -> files s' = X -> files (fn c s').1 = X) ->
  forall s, files s = X -> files (executor_run fn calls s).1 = X.
Proof.
  induction calls as [|c calls IH]; intros H s Hs; simpl; [done |].
  pose proof (H c s ltac:(by left) Hs) as Hc. destruct (fn c s) as [s1 r]. simpl in Hc.
  specialize (IH ltac:(intros; apply H; [by right | done]) s1 Hc).
  by destruct (executor_run fn calls s1).
Qed.

End Pool.

(** ** The two pipelines and the whole run *)

Section Pipelines.

Context (w : world).

Lemma download_image_result url h dir s : (download_image w url h dir s).2 = Return tt.
Proof. by destruct (download_image_returns w url h dir s) as [? _]. Qed.


Lemma run_video_call_result c s : (run_video_call w c s).2 = Return tt.
Proof. by destruct (download_video_returns w (call_url c) (call_hash c) (call_dir c) s) as [? _]. Qed.


Lemma run_video_call_gated c : gated_writer (run_video_call w c).
Proof. apply download_video_gated. Qed.

(** [download_images] is its pool: every row's call runs, none raises. *)
Lemma download_images_run csv dir s :
  download_images w csv dir s
  = ((executor_run (fun row => download_image w (image_url row) (image_hash row) dir)
        (unique_images csv) s).1, Return tt).
Proof.
  unfold download_images. apply join_pool_returns.
  intros row s' _. apply download_image_result.
Qed.

(** [download_videos] is its loop followed by its pool. *)
Lemma download_videos_run csv dir s :
  download_videos w csv dir s
  = ((executor_run (run_video_call w) (pending w dir (files s) (unique_videos csv))
        (submit_videos w (unique_videos csv) dir [] s).1).1, Return tt).
Proof.
  unfold download_videos, bind.
  destruct (submit_videos_run w dir (unique_videos csv) [] s) as (s1 & -> & _).
  simpl. apply join_pool_returns. intros c s' _. apply run_video_call_result.
Qed.



Lemma download_images_files_mono csv dir s :
  files s ⊆ files (download_images w csv dir s).1.
Proof.
  rewrite download_images_run. simpl. apply executor_run_files_mono.
  intros row _. apply download_image_gated.
Qed.

Lemma download_videos_files_mono csv dir s :
  files s ⊆ files (download_videos w csv dir s).1.
Proof.
  rewrite download_videos_run. simpl.
  destruct (submit_videos_run w dir (unique_videos csv) [] s) as (s1 & -> & Hf & _).
  simpl. rewrite <- Hf. apply executor_run_files_mono.
  intros c _. apply run_video_call_gated.
Qed.

(** Run on files that contain those of an earlier run, a pipeline changes
    no file. *)
Lemma download_images_fixed csv dir s X s' :
  files (download_images w csv dir s).1 ⊆ X ->
  files s' = X ->
  files (download_images w csv dir s').1 = X.
Proof.
  rewrite !download_images_run. simpl. intros HX Hs'.
  apply executor_run_id; [| done]. intros row s'' Hrow Hs''.
  apply (executor_run_fixed
           (fun row => download_image w (image_url row) (image_hash row) dir)
           (unique_images csv) s X row s''); try done.
  intros row' _. apply download_image_gated.
Qed.

Lemma download_videos_fixed csv dir s X s' :
  files (download_videos w csv dir s).1 ⊆ X ->
  files s' = X ->
  files (download_videos w csv dir s').1 = X.
Proof.
  intros HX Hs'.
  assert (files s ⊆ X) as Hmono.
  { etrans; [apply (download_videos_files_mono csv dir s) | done]. }
  rewrite download_videos_run in HX |- *. simpl in *.
  destruct (submit_videos_run w dir (unique_videos csv) [] s) as (s1 & E1 & Hf1 & _).
  destruct (submit_videos_run w dir (unique_videos csv) [] s') as (s1' & E1' & Hf1' & _).
  rewrite E1 in HX. rewrite E1'. simpl in *.
  apply executor_run_id; [| congruence]. intros c s'' Hc Hs''.
  apply (executor_run_fixed (run_video_call w)
           (pending w dir (files s) (unique_videos csv)) s1 X c s''); try done.
  - intros c' _. apply run_video_call_gated.
  - apply elem_of_pending in Hc as (row & Hrow & Hfs & Hr & Hh & Hd).
    apply elem_of_pending. exists row. repeat split; try done.
    destruct (files s !! video_path dir (video_hash row)) as [b|] eqn:Hb; [| done].
    assert (X !! video_path dir (video_hash row) = Some b) as HXb.
    { eapply lookup_weaken; [exact Hb | exact Hmono]. }
    rewrite Hs' in Hfs. congruence.
Qed.

(** [run_media_collection] runs both pipelines and returns. *)
Lemma run_media_collection_run images_csv videos_csv s :
  run_media_collection w images_csv videos_csv s
  = (add_log (INFO, CollectionCompleted)
       (download_videos w videos_csv video_save_dir
          (download_images w images_csv image_save_dir s).1).1,
     Return tt).
Proof.
  unfold run_media_collection, bind, join_pool. simpl.
  pose proof (download_images_run images_csv image_save_dir s) as Hi.
  destruct (download_images w images_csv image_save_dir s) as [s1 r1].
  injection Hi as _ ->. simpl.
  pose proof (download_videos_run videos_csv video_save_dir s1) as Hv.
  destruct (download_videos w videos_csv video_save_dir s1) as [s2 r2].
  injection Hv as _ ->. done.
Qed.

End Pipelines.

(** * The claims *)

(** ** Rows of the frames *)

Lemma read_csv_cell_str field u :
  read_csv_cell field = PyStr u -> u = field /\ field ∉ STR_NA_VALUES.
Proof.
  unfold read_csv_cell. case_bool_decide as H; [done |]. by intros [= <-].
Qed.

Lemma pd_notna_str v : pd_notna v = true -> exists u, v = PyStr u.
Proof. destruct v; try done. eauto. Qed.

Lemma elem_of_unique_videos csv row :
  row ∈ unique_videos csv ->
  exists l u,
    l ∈ csv /\ video_url_field l = u /\ (u ∉ STR_NA_VALUES) /\
    video_url row = PyStr u /\ video_hash row = PyStr (hash_url u).
Proof.
  unfold unique_videos. rewrite list_elem_of_In, in_map_iff.
  intros (x & <- & Hx). apply list_elem_of_In in Hx.
  pose proof (dedup_notna id _ _ Hx) as [u Hu]%pd_notna_str.
  simpl in Hu. subst x.
  assert (PyStr u ∈ id <$> dedup id (read_videos_csv csv)) as Hv.
  { rewrite list_fmap_id. done. }
  apply dedup_values in Hv as [_ Hv]. rewrite list_fmap_id in Hv.
  unfold read_videos_csv in Hv. apply list_elem_of_In, in_map_iff in Hv as (l & Hl & Hin).
  apply read_csv_cell_str in Hl as [-> Hna].
  exists l, (video_url_field l). rewrite list_elem_of_In. by repeat split.
Qed.

Lemma elem_of_unique_images csv row :
  row ∈ unique_images csv ->
  exists c1 l c2,
    csv = c1 ++ l :: c2 /\
    (forall l', l' ∈ c1 -> image_url_field l' <> image_url_field l) /\
    (image_url_field l ∉ STR_NA_VALUES) /\
    image_url row = PyStr (image_url_field l) /\
    image_hash row = read_csv_cell (image_hash_field l).
Proof.
  intros Hrow. pose proof (dedup_notna _ _ _ Hrow) as [u Hu]%pd_notna_str.
  apply dedup_first in Hrow as (l1 & l2 & E & Hfirst).
  unfold read_images_csv in E. apply map_eq_app in E as (c1 & c2' & -> & E1 & E2).
  apply map_eq_cons in E2 as (l & c2 & -> & Hl & E2). subst row l1. simpl in *.
  apply read_csv_cell_str in Hu as [-> Hna].
  exists c1, l, c2. repeat split; try done.
  - intros l' Hl' E. apply (Hfirst {| image_url := read_csv_cell (image_url_field l');
                                     image_hash := read_csv_cell (image_hash_field l') |}).
    + apply list_elem_of_In, in_map_iff. exists l'. by rewrite <- list_elem_of_In.
    + simpl. by rewrite E.
  - unfold read_csv_cell. by rewrite bool_decide_eq_false_2.
Qed.

(** C3. Deduplication drops every record whose URL is missing (an empty
    field of the CSV file is read as missing), keeps one record per URL, the
    first one of the frame, and yields the same URLs whatever the order of
    the records; the records A, A, B, None leave A and B. *)
Theorem C3_deduplication {R : Type} (col : R -> pyval) (df : list R) :
  (forall r, r ∈ dedup col df -> pd_notna (col r) = true) /\
  NoDup (col <$> dedup col df) /\
  (forall v, v ∈ col <$> dedup col df <-> pd_notna v = true /\ v ∈ col <$> df) /\
  (forall r, r ∈ dedup col df ->
     exists l1 l2, df = l1 ++ r :: l2 /\ forall r', r' ∈ l1 -> col r' <> col r) /\
  (forall df', df ≡ₚ df' -> col <$> dedup col df ≡ₚ col <$> dedup col df') /\
  read_csv_cell "" = PyNaN /\
  (forall csv row, row ∈ unique_images csv ->
                   exists u, image_url row = PyStr u /\ u <> "") /\
  (forall csv row, row ∈ unique_videos csv ->
                   exists u, video_url row = PyStr u /\ u <> "") /\
  dedup id abab_records = [PyStr "A"; PyStr "B"] /\
  video_url <$> unique_videos abab_lines = [PyStr "A"; PyStr "B"].
Proof.
  split; [apply dedup_notna |].
  split; [apply drop_duplicates_from_NoDup |].
  split; [apply dedup_values |].
  split; [apply dedup_first |].
  split; [apply dedup_Permutation |].
  split; [reflexivity |].
  split.
  { intros csv row (_ & l & _ & _ & _ & Hna & Hu & _)%elem_of_unique_images.
    exists (image_url_field l). split; [done |]. intros E. apply Hna.
    rewrite E. by left. }
  split.
  { intros csv row (l & u & _ & _ & Hna & Hu & _)%elem_of_unique_videos.
    exists u. split; [done |]. intros E. apply Hna. rewrite E. by left. }
  split; vm_compute; reflexivity.
Qed.

(** ** Files a call can touch *)

Lemma gated_writer_at_other {A} (m : M A) path s q :
  gated_writer_at path m -> q <> path -> files (m s).1 !! q = files s !! q.
Proof. intros [eff H] Hq. rewrite H. by apply gated_write_other. Qed.

(** C1 (as the code has it). A video's file name is the MD5 digest of its
    URL: the [video_hash] of every row and of every submitted call is
    [hash_url] of the row's URL, and the call writes nowhere but at
    [download_dir/hash.mp4].  An image's file name is the [image_hash] field
    of the first CSV line with its URL, as read, and the call writes nowhere
    but at [download_dir/image_hash.jpg]. *)
Theorem C1_identity (w : world) (images_csv : list image_line)
    (videos_csv : list video_line) (dir : string) :
  Forall (fun row =>
            exists u, video_url row = PyStr u /\ video_hash row = PyStr (hash_url u) /\
                      video_path dir (video_hash row) = os_path_join dir (hash_url u +:+ ".mp4"))
         (unique_videos videos_csv) /\
  (forall s s' futures,
      submit_videos w (unique_videos videos_csv) dir [] s = (s', Return futures) ->
      Forall (fun c =>
                exists row u, row ∈ unique_videos videos_csv /\ video_url row = PyStr u /\
                              call_hash c = PyStr (hash_url u) /\ call_dir c = dir)
             futures) /\
  (forall url h s q,
      q <> video_path dir h -> files (download_video w url h dir s).1 !! q = files s !! q) /\
  Forall (fun row =>
            exists c1 l c2,
              images_csv = c1 ++ l :: c2 /\
              (forall l', l' ∈ c1 -> image_url_field l' <> image_url_field l) /\
              image_url row = PyStr (image_url_field l) /\
              image_hash row = read_csv_cell (image_hash_field l))
         (unique_images images_csv) /\
  download_images w images_csv dir
  = join_pool (fun row => download_image w (image_url row) (image_hash row) dir)
              (unique_images images_csv) /\
  (forall url h s q,
      q <> image_path dir h -> files (download_image w url h dir s).1 !! q = files s !! q).
Proof.
  split; [| split; [| split; [| split; [| split]]]].
  - apply Forall_forall. intros row (l & u & _ & _ & _ & Hu & Hh)%elem_of_unique_videos.
    exists u. by rewrite Hh.
  - intros s s' futures E.
    destruct (submit_videos_run w dir (unique_videos videos_csv) [] s) as (s1 & E1 & _).
    rewrite E1 in E. injection E as _ <-. simpl.
    apply Forall_forall. intros c (row & Hrow & _ & _ & Hh & Hd)%elem_of_pending.
    pose proof Hrow as (l & u & _ & _ & _ & Hu & Hh')%elem_of_unique_videos.
    exists row, u. repeat split; try done. congruence.
  - intros url h s q Hq. apply (gated_writer_at_other _ (video_path dir h)); [apply download_video_gated_at | done].
  - apply Forall_forall. intros row (c1 & l & c2 & E & Hf & _ & Hu & Hh)%elem_of_unique_images.
    by exists c1, l, c2.
  - done.
  - intros url h s q Hq. apply (gated_writer_at_other _ (image_path dir h)); [apply download_image_gated_at | done].
Qed.

(** C1, as stated, fails for images: the same image URL lands at
    [images/h1.jpg] or [images/h2.jpg] according to the [image_hash] field
    of its line, and neither is the digest of the URL. *)
Lemma C1_image_identity_counterexample :
  hash_url "https://pbs.twimg.com/media/A.jpg" = "93b8877cd81a5fa754c4d3b395ae2920" /\
  files (download_images image_world (one_image "h1") "images" empty_state).1
  = {[ "images/h1.jpg" := list_byte_of_string "JPEG" ]} /\
  files (download_images image_world (one_image "h2") "images" empty_state).1
  = {[ "images/h2.jpg" := list_byte_of_string "JPEG" ]} /\
  files (download_images image_world (one_image "h1") "images" empty_state).1
    !! "images/93b8877cd81a5fa754c4d3b395ae2920.jpg" = None.
Proof. repeat split; vm_compute; reflexivity. Qed.

(** ** The video URL resolver *)

(** C6. When the first marker container of the landing page has an
    anchor, the resolver returns the [href] of the first anchor below that
    container, in document order; with the anchors [href1; href2] it returns
    [href1]. *)
Theorem C6_first_anchor (w : world) (api : string) (s : state) :
  (forall r c cs a rest,
      response_of w (PyStr api) false = Return r ->
      find_all (html_parser w (content r)) "div" (Some "origin-top-right") = c :: cs ->
      find_all c "a" None = a :: rest ->
      extract_highest_quality_video_url w api s
      = (add_request {| req_url := PyStr api; req_stream := false |} s,
         Return (tag_get a "href"))) /\
  (forall r href1 href2,
      response_of w (PyStr api) false = Return r ->
      html_parser w (content r) = landing_page [Some href1; Some href2] ->
      extract_highest_quality_video_url w api s
      = (add_request {| req_url := PyStr api; req_stream := false |} s,
         Return (PyStr href1))).
Proof.
  split.
  - intros r c cs a rest Hr Hc Ha. rewrite extract_run. f_equal.
    by apply (resolved_first w api r c cs a rest).
  - intros r href1 href2 Hr Hp. rewrite extract_run. f_equal.
    eapply (resolved_first w api r _ _ (anchor (Some href1))); [done | |].
    + rewrite Hp. vm_compute. reflexivity.
    + vm_compute. reflexivity.
Qed.

Lemma C6_first_anchor_witness :
  extract_highest_quality_video_url
    (landing_world [Some "https://cdn/hd.mp4"; Some "https://cdn/sd.mp4"])
    landing_url empty_state
  = (add_request landing_request empty_state, Return (PyStr "https://cdn/hd.mp4")).
Proof.
  apply (proj2 (C6_first_anchor
                  (landing_world [Some "https://cdn/hd.mp4"; Some "https://cdn/sd.mp4"])
                  landing_url empty_state)
           (ok_response "page") "https://cdn/hd.mp4" "https://cdn/sd.mp4"); reflexivity.
Defined.

(** C2 (as the code has it). When the landing page has no marker
    container, or its first marker container has no anchor, the resolver
    returns no value: the subscript [[0]] raises Python's [IndexError].
    [download_videos] catches it with its [except Exception], logs it, and
    submits no download for the row. *)
Theorem C2_missing_marker (w : world) (row : video_row) (rows : list video_row)
    (dir : string) (futures : list video_call) (s : state) (r : response) :
  files s !! video_path dir (video_hash row) = None ->
  response_of w (PyStr (api_url (video_url row))) false = Return r ->
  (find_all (html_parser w (content r)) "div" (Some "origin-top-right") = [] \/
   exists c cs,
     find_all (html_parser w (content r)) "div" (Some "origin-top-right") = c :: cs /\
     find_all c "a" None = []) ->
  extract_highest_quality_video_url w (api_url (video_url row)) s
  = (add_request {| req_url := PyStr (api_url (video_url row)); req_stream := false |} s,
     Raise IndexError) /\
  submit_videos w (row :: rows) dir futures s
  = submit_videos w rows dir futures
      (add_log (ERROR, ExtractErrorOccurred IndexError)
         (add_request {| req_url := PyStr (api_url (video_url row)); req_stream := false |} s)).
Proof.
  intros Hs Hr Hpage.
  assert (resolved w (api_url (video_url row)) = Raise IndexError) as Hres.
  { destruct Hpage as [Hc | (c & cs & Hc & Ha)].
    - by apply (resolved_no_container w _ r).
    - by apply (resolved_no_anchor w _ r c cs). }
  split.
  - by rewrite extract_run, Hres.
  - by apply submit_videos_failed.
Qed.

Lemma C2_missing_marker_witness :
  extract_highest_quality_video_url missing_container_world landing_url empty_state
  = (add_request landing_request empty_state, Raise IndexError) /\
  submit_videos missing_container_world [tweet_row] "videos" [] empty_state
  = (add_log (ERROR, ExtractErrorOccurred IndexError)
       (add_request landing_request empty_state), Return []).
Proof.
  apply (C2_missing_marker missing_container_world tweet_row [] "videos" [] empty_state
           (ok_response "sorry")).
  - reflexivity.
  - reflexivity.
  - left. vm_compute. reflexivity.
Defined.

(** C2, as stated, fails: what the resolver signals for the error page is
    the builtin [IndexError], and [download_videos] handles it in the one
    clause that also handles an unreachable site, with the same message. *)
Lemma C2_not_found_counterexample :
  extract_highest_quality_video_url missing_container_world landing_url empty_state
  = (add_request landing_request empty_state, Raise IndexError) /\
  download_videos missing_container_world tweet_lines "videos" empty_state
  = ({| files := ∅;
        log := [(ERROR, ExtractErrorOccurred IndexError)];
        requests := [landing_request];
        progress := [] |}, Return tt) /\
  download_videos unreachable_world tweet_lines "videos" empty_state
  = ({| files := ∅;
        log := [(ERROR, ExtractErrorOccurred ConnectionError)];
        requests := [landing_request];
        progress := [] |}, Return tt).
Proof. repeat split; vm_compute; reflexivity. Qed.

(** C10. When the first anchor of the first marker container has no
    [href], the resolver returns [None]; [download_videos] submits
    [download_video(None, video_hash, download_dir)], and that call asks
    [requests.get] for [None]. *)
Theorem C10_missing_href (w : world) (row : video_row) (rows : list video_row)
    (dir : string) (futures : list video_call) (s : state) (r : response)
    (c : node) (cs : list node) (name : string) (attrs : list (string * string))
    (children rest : list node) :
  files s !! video_path dir (video_hash row) = None ->
  response_of w (PyStr (api_url (video_url row))) false = Return r ->
  find_all (html_parser w (content r)) "div" (Some "origin-top-right") = c :: cs ->
  find_all c "a" None = Tag name attrs children :: rest ->
  dict_get "href" attrs = None ->
  extract_highest_quality_video_url w (api_url (video_url row)) s
  = (add_request {| req_url := PyStr (api_url (video_url row)); req_stream := false |} s,
     Return PyNone) /\
  submit_videos w (row :: rows) dir futures s
  = submit_videos w rows dir
      (futures ++ [ {| call_url := PyNone; call_hash := video_hash row; call_dir := dir |} ])
      (add_request {| req_url := PyStr (api_url (video_url row)); req_stream := false |} s) /\
  (forall s2,
      files s2 !! video_path dir (video_hash row) = None ->
      download_video w PyNone (video_hash row) dir s2
      = (add_log (ERROR, ErrorOccurred MissingSchema)
           (add_request {| req_url := PyNone; req_stream := true |} s2), Return tt)).
Proof.
  intros Hs Hr Hc Ha Hhref.
  assert (resolved w (api_url (video_url row)) = Return PyNone) as Hres.
  { rewrite (resolved_first w _ r c cs _ rest Hr Hc Ha). simpl. by rewrite Hhref. }
  split; [by rewrite extract_run, Hres |].
  split; [by apply submit_videos_resolved |].
  intros s2 Hs2. by rewrite (download_video_fails w PyNone _ _ _ MissingSchema).
Qed.

Lemma C10_missing_href_witness :
  extract_highest_quality_video_url (landing_world [None; Some "https://cdn/sd.mp4"])
    landing_url empty_state
  = (add_request landing_request empty_state, Return PyNone) /\
  submit_videos (landing_world [None; Some "https://cdn/sd.mp4"]) [tweet_row] "videos" []
    empty_state
  = (add_request landing_request empty_state,
     Return [ {| call_url := PyNone; call_hash := PyStr (hash_url tweet);
                 call_dir := "videos" |} ]) /\
  (forall s2,
      files s2 !! video_path "videos" (PyStr (hash_url tweet)) = None ->
      download_video (landing_world [None; Some "https://cdn/sd.mp4"]) PyNone
        (PyStr (hash_url tweet)) "videos" s2
      = (add_log (ERROR, ErrorOccurred MissingSchema)
           (add_request {| req_url := PyNone; req_stream := true |} s2), Return tt)).
Proof.
  apply (C10_missing_href (landing_world [None; Some "https://cdn/sd.mp4"])
           tweet_row [] "videos" [] empty_state (ok_response "page")
           (Tag "div" [("class", "flex origin-top-right absolute")]
              [anchor None; anchor (Some "https://cdn/sd.mp4")])
           [] "a" [] [NavigableString "Download"]
           [anchor (Some "https://cdn/sd.mp4")]); reflexivity.
Defined.

(** The whole pipeline on that page: one request for the landing page,
    one for [None], and the error it ends with. *)
Example download_videos_missing_href :
  download_videos (landing_world [None; Some "https://cdn/sd.mp4"]) tweet_lines "videos"
    empty_state
  = ({| files := ∅;
        log := [(ERROR, ErrorOccurred MissingSchema)];
        requests := [landing_request; {| req_url := PyNone; req_stream := true |}];
        progress := [] |}, Return tt).
Proof. vm_compute. reflexivity. Qed.

(** ** The image fetcher *)

(** C5 (as the code has it). A transport failure, or a 4xx or 5xx status
    (the ones [raise_for_status] rejects), leaves the files as they were;
    when the request, the status and the disk are fine, exactly the target
    is created and it holds the whole body. *)
Theorem C5_image_fetch (w : world) (url h : pyval) (dir : string) (s : state) :
  let p := image_path dir h in
  let s' := (download_image w url h dir s).1 in
  (forall e, response_of w url false = Raise e -> files s' = files s) /\
  (forall r, response_of w url false = Return r ->
             (400 <= status_code r < 600)%Z -> files s' = files s) /\
  (forall r, files s !! p = None ->
             response_of w url false = Return r ->
             ~ (400 <= status_code r < 600)%Z ->
             open_wb w p = None ->
             file_write w p 0 = None ->
             files s' = <[p := content r]> (files s) /\
             dom (files s') = {[p]} ∪ dom (files s) /\
             (p ∉ dom (files s)) /\
             log s' = log s ++ [(INFO, ImageSaved p)]).
Proof.
  intros p s'. subst s'. fold p. split; [| split].
  - intros e He. destruct (files s !! p) as [c|] eqn:Hp.
    + unfold p in Hp. by rewrite download_image_exists by (rewrite Hp; eauto).
    + by rewrite (download_image_fails w url h dir s e).
  - intros r Hr Hst. destruct (files s !! p) as [c|] eqn:Hp.
    + unfold p in Hp. by rewrite download_image_exists by (rewrite Hp; eauto).
    + by rewrite (download_image_http_error w url h dir s r).
  - intros r Hp Hr Hst Hopen Hwr.
    rewrite (download_image_saved w url h dir s r) by done. simpl. fold p.
    repeat split; try done.
    + by rewrite dom_insert_L.
    + by apply not_elem_of_dom.
Qed.

Lemma C5_image_fetch_witness :
  files (download_image image_world (PyStr "https://pbs.twimg.com/media/A.jpg")
           (PyStr "h1") "images" empty_state).1
  = <[ "images/h1.jpg" := list_byte_of_string "JPEG" ]> ∅.
Proof.
  apply (proj2 (proj2 (C5_image_fetch image_world
                         (PyStr "https://pbs.twimg.com/media/A.jpg") (PyStr "h1")
                         "images" empty_state)) (ok_response "JPEG"));
    try reflexivity.
  simpl. lia.
Defined.

(** C5, as stated, fails: the status 300 is not 2xx, and the body of the
    response is saved as the image. *)
Lemma C5_non_2xx_counterexample :
  download_image multiple_choices_world (PyStr "https://pbs.twimg.com/media/A.jpg")
    (PyStr "h1") "images" empty_state
  = ({| files := {[ "images/h1.jpg" := list_byte_of_string "<html>choices</html>" ]};
        log := [(INFO, ImageSaved "images/h1.jpg")];
        requests := [ {| req_url := PyStr "https://pbs.twimg.com/media/A.jpg";
                         req_stream := false |} ];
        progress := [] |}, Return tt).
Proof. vm_compute. reflexivity. Qed.

(** ** The streaming video fetcher *)

Lemma content_length_declared r v N :
  headers r !! "content-length" = Some v -> py_int v = Some N -> content_length r = ret N.
Proof. intros Hv HN. unfold content_length. by rewrite Hv, HN. Qed.

Lemma content_length_missing r :
  headers r !! "content-length" = None -> content_length r = ret 0%Z.
Proof. intros Hv. unfold content_length. by rewrite Hv. Qed.




(** C9. Without a [Content-Length] header the download does not fail:
    the total given to the progress bar is 0, every chunk is read and
    written, and the file holds the whole body.  A response that differs by
    a readable [Content-Length] only gives the same files, log and requests:
    the declared length reaches nothing but the progress bar. *)
Theorem C9_no_content_length (w : world) (url h : pyval) (dir : string) (s : state)
    (r : response) :
  files s !! video_path dir h = None ->
  response_of w url true = Return r ->
  ~ (400 <= status_code r < 600)%Z ->
  headers r !! "content-length" = None ->
  open_wb w (video_path dir h) = None ->
  (forall offset, file_write w (video_path dir h) offset = None) ->
  broken r = None ->
  let p := video_path dir h in
  let chunks := iter_content block_size (content r) in
  download_video w url h dir s
  = ({| files := <[p := content r]> (files s);
        log := log s ++ [(INFO, VideoSaved p)];
        requests := requests s ++ [ {| req_url := url; req_stream := true |} ];
        progress :=
          progress s
          ++ TqdmNew 0 ("Downloading " +:+ p) :: ((fun c => TqdmUpdate (length c)) <$> chunks)
          ++ [TqdmClose] |}, Return tt) /\
  concat chunks = content r /\
  (forall w' r' v N,
      response_of w' url true = Return r' ->
      status_code r' = status_code r ->
      content r' = content r ->
      broken r' = None ->
      headers r' !! "content-length" = Some v ->
      py_int v = Some N ->
      open_wb w' p = None ->
      (forall offset, file_write w' p offset = None) ->
      download_video w' url h dir s
      = ({| files := <[p := content r]> (files s);
            log := log s ++ [(INFO, VideoSaved p)];
            requests := requests s ++ [ {| req_url := url; req_stream := true |} ];
            progress :=
              progress s
              ++ TqdmNew N ("Downloading " +:+ p)
                 :: ((fun c => TqdmUpdate (length c)) <$> chunks)
              ++ [TqdmClose] |}, Return tt)).
Proof.
  intros Hs Hr Hst Hv Hopen Hwr Hb p chunks. split; [| split].
  - by apply download_video_saved; auto using content_length_missing.
  - apply concat_iter_content. unfold block_size. lia.
  - intros w' r' v N Hr' Hst' Hc' Hb' Hv' HN Hopen' Hwr'.
    unfold chunks. rewrite <- Hc'.
    apply download_video_saved; try done.
    + by rewrite Hst'.
    + by apply (content_length_declared r' v N).
Qed.

Lemma C9_no_content_length_witness :
  download_video (video_world (ok_response "0123456789")) (PyStr "https://cdn/hd.mp4")
    (PyStr "h") "videos" empty_state
  = ({| files := {[ "videos/h.mp4" := list_byte_of_string "0123456789" ]};
        log := [(INFO, VideoSaved "videos/h.mp4")];
        requests := [ {| req_url := PyStr "https://cdn/hd.mp4"; req_stream := true |} ];
        progress := [TqdmNew 0 "Downloading videos/h.mp4"; TqdmUpdate 10; TqdmClose] |},
     Return tt).
Proof.
  assert (~ (400 <= 200 < 600)%Z) as Hst by lia.
  destruct (C9_no_content_length (video_world (ok_response "0123456789"))
              (PyStr "https://cdn/hd.mp4") (PyStr "h") "videos" empty_state
              (ok_response "0123456789")
              eq_refl eq_refl Hst eq_refl eq_refl (fun _ => eq_refl) eq_refl)
    as (Hrun & _).
  rewrite Hrun. vm_compute. reflexivity.
Defined.

(** ** Isolation of the items *)

Section Pool_log.

Context {T : Type} (fn : T -> M unit).
Context (Hone : forall c s, exists rec, log (fn c s).1 = log s ++ [rec]).



End Pool_log.

Lemma lookup_weaken_is_Some_files (fs fs' : gmap string (list Byte.byte)) path :
  fs ⊆ fs' -> is_Some (fs !! path) -> is_Some (fs' !! path).
Proof. intros H [c Hc]. exists c. by eapply lookup_weaken. Qed.



(** ** Idempotence *)

Lemma submit_videos_app (w : world) dir l1 :
  forall l2 futures s s1 futures1,
    submit_videos w l1 dir futures s = (s1, Return futures1) ->
    submit_videos w (l1 ++ l2) dir futures s = submit_videos w l2 dir futures1 s1.
Proof.
  induction l1 as [|row l1 IH]; intros l2 futures s s1 futures1.
  - simpl. by intros [= -> ->].
  - rewrite <- app_comm_cons.
    destruct (files s !! video_path dir (video_hash row)) as [c|] eqn:Hs.
    + rewrite !submit_videos_skip by (rewrite Hs; eauto). apply IH.
    + destruct (resolved w (api_url (video_url row))) as [url|e] eqn:Hr.
      * rewrite !(submit_videos_resolved w dir _ _ _ _ url) by done. apply IH.
      * rewrite !(submit_videos_failed w dir _ _ _ _ e) by done. apply IH.
Qed.

(** C4 (as the code has it). An item whose target exists before the run
    is skipped without any request: the image call only logs the skip, the iteration of the
    video loop only logs the skip and no download is submitted for the
    target.  Run again on the files it left, with the same answers from the
    network and the disk, each pipeline and the whole run leave the files as
    they are; whatever the network answers, a run keeps every file that
    was there, with its content. *)
Theorem C4_idempotence (w : world) (images_csv : list image_line)
    (videos_csv : list video_line) (s : state) :
  (forall dir l1 row l2,
      unique_images images_csv = l1 ++ row :: l2 ->
      is_Some (files s !! image_path dir (image_hash row)) ->
      let s1 := (executor_run
                   (fun row => download_image w (image_url row) (image_hash row) dir)
                   l1 s).1 in
      download_image w (image_url row) (image_hash row) dir s1
      = (add_log (INFO, ImageAlreadyExists (image_path dir (image_hash row))) s1,
         Return tt)) /\
  (forall dir l1 row l2 s1 futures1,
      unique_videos videos_csv = l1 ++ row :: l2 ->
      is_Some (files s !! video_path dir (video_hash row)) ->
      submit_videos w l1 dir [] s = (s1, Return futures1) ->
      submit_videos w (unique_videos videos_csv) dir [] s
      = submit_videos w l2 dir futures1
          (add_log (INFO, VideoAlreadyExists (video_path dir (video_hash row))) s1)) /\
  (forall dir row s' futures,
      row ∈ unique_videos videos_csv ->
      is_Some (files s !! video_path dir (video_hash row)) ->
      submit_videos w (unique_videos videos_csv) dir [] s = (s', Return futures) ->
      forall c, c ∈ futures ->
                video_path (call_dir c) (call_hash c) <> video_path dir (video_hash row)) /\
  (forall dir,
      files (download_images w images_csv dir (download_images w images_csv dir s).1).1
      = files (download_images w images_csv dir s).1) /\
  (forall dir,
      files (download_videos w videos_csv dir (download_videos w videos_csv dir s).1).1
      = files (download_videos w videos_csv dir s).1) /\
  files (run_media_collection w images_csv videos_csv
           (run_media_collection w images_csv videos_csv s).1).1
  = files (run_media_collection w images_csv videos_csv s).1 /\
  (forall w', files s ⊆ files (run_media_collection w' images_csv videos_csv s).1).
Proof.
  repeat apply conj.
  - intros dir l1 row l2 E Hex s1. apply download_image_exists.
    eapply lookup_weaken_is_Some_files; [| exact Hex].
    apply executor_run_files_mono. intros c _. apply download_image_gated.
  - intros dir l1 row l2 s1 futures1 E Hex Hl1.
    rewrite E, (submit_videos_app w dir l1 _ _ _ _ _ Hl1).
    apply submit_videos_skip.
    destruct (submit_videos_run w dir l1 [] s) as (s1' & E1 & Hf & _).
    rewrite E1 in Hl1. injection Hl1 as -> _. by rewrite Hf.
  - intros dir row s' futures Hrow Hex Hrun c Hc.
    destruct (submit_videos_run w dir (unique_videos videos_csv) [] s) as (s1 & E1 & _).
    rewrite E1 in Hrun. injection Hrun as _ <-. simpl in Hc.
    apply elem_of_pending in Hc as (row' & _ & Hfs & _ & -> & ->).
    intros E. rewrite E in Hfs. rewrite Hfs in Hex. by destruct Hex.
  - intros dir. by apply (download_images_fixed w images_csv dir s).
  - intros dir. by apply (download_videos_fixed w videos_csv dir s).
  - rewrite !run_media_collection_run. simpl.
    set (s1 := (download_images w images_csv image_save_dir s).1).
    set (s2 := (download_videos w videos_csv video_save_dir s1).1).
    set (t0 := add_log (INFO, CollectionCompleted) s2).
    set (t1 := (download_images w images_csv image_save_dir t0).1).
    assert (files t1 = files s2) as Ht1.
    { apply (download_images_fixed w images_csv image_save_dir s); [| done].
      apply download_videos_files_mono. }
    by apply (download_videos_fixed w videos_csv video_save_dir s1).
  - intros w'. rewrite run_media_collection_run. simpl.
    etrans; [apply (download_images_files_mono w' images_csv image_save_dir) |].
    apply download_videos_files_mono.
Qed.

Lemma C4_idempotence_witness :
  download_image image_world (PyStr "https://pbs.twimg.com/media/A.jpg") (PyStr "h1")
    "images" (download_images image_world (one_image "h1") "images" empty_state).1
  = (add_log (INFO, ImageAlreadyExists "images/h1.jpg")
       (download_images image_world (one_image "h1") "images" empty_state).1,
     Return tt).
Proof.
  exact (proj1 (C4_idempotence image_world (one_image "h1") []
                  (download_images image_world (one_image "h1") "images" empty_state).1)
           "images" []
           {| image_url := PyStr "https://pbs.twimg.com/media/A.jpg";
              image_hash := PyStr "h1" |} []
           eq_refl (ex_intro _ (list_byte_of_string "JPEG") eq_refl)).
Defined.

(** C4, as stated, fails: the network is down during the first run and
    up during the second, on the same file and the same directories.  The
    first run leaves no file; the second run requests the image again and
    adds its file, so the files after the two runs differ. *)
Lemma C4_second_run_counterexample :
  files (run_media_collection unreachable_world (one_image "h1") [] empty_state).1 = ∅ /\
  files (run_media_collection image_world (one_image "h1") []
           (run_media_collection unreachable_world (one_image "h1") [] empty_state).1).1
  = {[ "/Volumes/T7/ukgetweets2/collected/images/h1.jpg" := list_byte_of_string "JPEG" ]}.
Proof. split; vm_compute; reflexivity. Qed.

(** The second run of the whole collection on concrete files: it only logs
    skips and makes no request. *)
Example run_media_collection_twice :
  let once := (run_media_collection image_world (one_image "h1") [] empty_state).1 in
  let twice := (run_media_collection image_world (one_image "h1") [] once).1 in
  files twice = files once /\
  requests twice = requests once /\
  log twice
  = log once
    ++ [(INFO, ImageAlreadyExists "/Volumes/T7/ukgetweets2/collected/images/h1.jpg");
        (INFO, CollectionCompleted)].
Proof. repeat split; vm_compute; reflexivity. Qed.

(** * Further properties of the module *)

(** ** The shape of a digest *)

Module MD5_facts.

Import MD5.
Local Open Scope Z_scope.

Lemma length_le_bytes n x : length (le_bytes n x) = n.
Proof. revert x. induction n as [|n IH]; intros x; simpl; [done | by rewrite IH]. Qed.

Lemma le_bytes_range n x : Forall (fun b => 0 <= b < 256) (le_bytes n x).
Proof.
  revert x. induction n as [|n IH]; intros x; simpl; constructor; [| apply IH].
  change 0xff with (Z.ones 8). rewrite Z.land_ones by lia.
  apply Z.mod_pos_bound. lia.
Qed.

Lemma length_digest msg : length (digest msg) = 16%nat.
Proof.
  unfold digest. destruct (blocks _ _ _) as [[[a b] c] d].
  rewrite !length_app, !length_le_bytes. done.
Qed.

Lemma digest_range msg : Forall (fun b => 0 <= b < 256) (digest msg).
Proof.
  unfold digest. destruct (blocks _ _ _) as [[[a b] c] d].
  repeat (apply Forall_app; split); apply le_bytes_range.
Qed.

Lemma length_hex bs : String.length (hex bs) = (2 * length bs)%nat.
Proof. induction bs as [|b bs IH]; simpl; [done | rewrite IH; lia]. Qed.

Lemma hex_digit_is_hex x : 0 <= x < 16 -> is_hex_char (hex_digit x) = true.
Proof.
  intros H.
  assert (x = 0 \/ x = 1 \/ x = 2 \/ x = 3 \/ x = 4 \/ x = 5 \/ x = 6 \/ x = 7 \/
          x = 8 \/ x = 9 \/ x = 10 \/ x = 11 \/ x = 12 \/ x = 13 \/ x = 14 \/ x = 15)
    as Hx by lia.
  repeat (destruct Hx as [-> | Hx]; [reflexivity |]). by subst.
Qed.

Lemma hex_chars bs :
  Forall (fun b => 0 <= b < 256) bs ->
  Forall (fun c => is_hex_char c = true) (list_ascii_of_string (hex bs)).
Proof.
  induction 1 as [|b bs Hb _ IH]; simpl; [constructor |].
  constructor; [| constructor; [| done]]; apply hex_digit_is_hex.
  - rewrite Z.shiftr_div_pow2 by lia. change (2 ^ 4) with 16.
    split; [apply Z.div_pos; lia | apply Z.div_lt_upper_bound; lia].
  - change 0xf with (Z.ones 4). rewrite Z.land_ones by lia.
    apply Z.mod_pos_bound. lia.
Qed.

End MD5_facts.

(** X1. [hash_url] always returns 32 characters, each one of [0-9a-f]. *)
Theorem hash_url_hexdigest (url : string) :
  String.length (hash_url url) = 32 /\
  Forall (fun c => is_hex_char c = true) (list_ascii_of_string (hash_url url)).
Proof.
  unfold hash_url, MD5.hexdigest. split.
  - by rewrite MD5_facts.length_hex, MD5_facts.length_digest.
  - apply MD5_facts.hex_chars, MD5_facts.digest_range.
Qed.

Lemma hash_url_cons url : exists c rest, hash_url url = String c rest /\ is_hex_char c = true.
Proof.
  pose proof (MD5_facts.length_hex (MD5.digest (MD5.bytes_of_string url))) as Hlen.
  pose proof (MD5_facts.hex_chars _ (MD5_facts.digest_range (MD5.bytes_of_string url)))
    as Hall.
  rewrite MD5_facts.length_digest in Hlen.
  unfold hash_url, MD5.hexdigest.
  destruct (MD5.hex _) as [|c rest]; [done |].
  exists c, rest. split; [done |]. simpl in Hall. by inversion Hall.
Qed.

Lemma not_slash_of_hex c : is_hex_char c = true -> c <> "/"%char.
Proof. intros H ->. done. Qed.

Lemma prefix_slash_cons c rest :
  c <> "/"%char -> String.prefix "/" (String c rest) = false.
Proof. intros Hc. cbn [String.prefix]. by destruct (ascii_dec "/" c) as [<-|_]. Qed.

Lemma list_ascii_of_string_app s1 s2 :
  list_ascii_of_string (s1 +:+ s2) = list_ascii_of_string s1 ++ list_ascii_of_string s2.
Proof. induction s1 as [|c s1 IH]; simpl; [done | by rewrite IH]. Qed.

(** X2. The target of a video is a file of [download_dir] itself: the
    directory, a separator when the directory does not end with one, the
    32 hexadecimal characters of the digest of the URL, and [.mp4]; the file
    name holds no [/]. *)
Theorem video_target_in_download_dir (dir url : string) :
  video_path dir (hash_column (PyStr url))
  = dir +:+ (if bool_decide (dir = "") || ends_with_sep dir then "" else "/")
        +:+ hash_url url +:+ ".mp4" /\
  Forall (fun c => c <> "/"%char) (list_ascii_of_string (hash_url url +:+ ".mp4")).
Proof.
  destruct (hash_url_cons url) as (c & rest & E & Hc).
  pose proof (not_slash_of_hex c Hc) as Hne. split.
  - unfold video_path, os_path_join, hash_column, py_format. rewrite E.
    change (String c rest +:+ ".mp4") with (String c (rest +:+ ".mp4")).
    rewrite prefix_slash_cons by done.
    by destruct (bool_decide (dir = "") || ends_with_sep dir).
  - rewrite list_ascii_of_string_app. apply Forall_app. split.
    + eapply Forall_impl;
        [apply MD5_facts.hex_chars, (MD5_facts.digest_range (MD5.bytes_of_string url)) |].
      intros x Hx. by apply not_slash_of_hex.
    + simpl. repeat constructor; done.
Qed.

(** ** Targets of images *)

Lemma prefix_slash_app h suffix :
  String.prefix "/" h = true -> String.prefix "/" (h +:+ suffix) = true.
Proof.
  destruct h as [|c rest]; [by intros [=] |].
  change (String c rest +:+ suffix) with (String c (rest +:+ suffix)).
  cbn [String.prefix].
  destruct (ascii_dec "/" c); [intros _; by destruct (rest +:+ suffix) | by intros [=]].
Qed.

(** X3. An [image_hash] that begins with [/] takes the image out of
    [download_dir]: the target is [image_hash.jpg] whatever the directory,
    and that is where a successful download writes the body. *)
Theorem image_hash_absolute (w : world) (url : pyval) (h dir : string) (s : state)
    (r : response) :
  String.prefix "/" h = true ->
  files s !! (h +:+ ".jpg") = None ->
  response_of w url false = Return r ->
  ~ (400 <= status_code r < 600)%Z ->
  open_wb w (h +:+ ".jpg") = None ->
  file_write w (h +:+ ".jpg") 0 = None ->
  image_path dir (PyStr h) = h +:+ ".jpg" /\
  files (download_image w url (PyStr h) dir s).1 = <[h +:+ ".jpg" := content r]> (files s).
Proof.
  intros Hh Hs Hr Hst Hopen Hwr.
  assert (image_path dir (PyStr h) = h +:+ ".jpg") as Hp.
  { unfold image_path, os_path_join, py_format. by rewrite prefix_slash_app. }
  split; [done |].
  rewrite (download_image_saved w url (PyStr h) dir s r); rewrite ?Hp; done.
Qed.

Lemma image_hash_absolute_witness :
  image_path "images" (PyStr "/tmp/x") = "/tmp/x.jpg" /\
  files (download_image image_world (PyStr "https://pbs.twimg.com/media/A.jpg")
           (PyStr "/tmp/x") "images" empty_state).1
  = <[ "/tmp/x.jpg" := list_byte_of_string "JPEG" ]> ∅.
Proof.
  assert (~ (400 <= 200 < 600)%Z) as Hst by lia.
  exact (image_hash_absolute image_world (PyStr "https://pbs.twimg.com/media/A.jpg")
           "/tmp/x" "images" empty_state (ok_response "JPEG")
           eq_refl eq_refl eq_refl Hst eq_refl eq_refl).
Defined.

(** X4. The existence test goes by [image_hash], deduplication by
    [image_url]: of two rows with different URLs and the same [image_hash],
    once the first has been fetched the second is skipped without a request.
    Rows whose [image_hash] is missing all share the target [nan.jpg]. *)
Theorem shared_image_hash (w : world) (csv : list image_line) (dir : string) (s : state)
    (l1 l2 l3 : list image_row) (row1 row2 : image_row) (r : response) :
  unique_images csv = l1 ++ row1 :: l2 ++ row2 :: l3 ->
  image_hash row2 = image_hash row1 ->
  response_of w (image_url row1) false = Return r ->
  ~ (400 <= status_code r < 600)%Z ->
  open_wb w (image_path dir (image_hash row1)) = None ->
  file_write w (image_path dir (image_hash row1)) 0 = None ->
  let fn := fun row => download_image w (image_url row) (image_hash row) dir in
  let s2 := (executor_run fn (l1 ++ row1 :: l2) s).1 in
  image_url row2 <> image_url row1 /\
  download_image w (image_url row2) (image_hash row2) dir s2
  = (add_log (INFO, ImageAlreadyExists (image_path dir (image_hash row1))) s2, Return tt) /\
  image_path dir (read_csv_cell "") = os_path_join dir "nan.jpg".
Proof.
  intros E Hh Hr Hst Hopen Hwr fn s2. split; [| split; [| done]].
  - pose proof (drop_duplicates_from_NoDup image_url
                  (dropna image_url (read_images_csv csv)) []) as Hnd.
    change (NoDup (image_url <$> unique_images csv)) in Hnd.
    rewrite E, fmap_app, fmap_cons, fmap_app, fmap_cons in Hnd.
    apply NoDup_app in Hnd as (_ & _ & Hnd). apply NoDup_cons in Hnd as [Hnot _].
    intros Heq. apply Hnot. rewrite <- Heq. apply elem_of_app. right. by left.
  - rewrite Hh. apply download_image_exists. unfold s2.
    pose proof (executor_run_app fn l1 (row1 :: l2) s) as Happ.
    destruct (executor_run fn l1 s) as [s1 r1] eqn:E1.
    simpl in Happ.
    assert (is_Some (files (fn row1 s1).1 !! image_path dir (image_hash row1))) as Hex.
    { unfold fn.
      destruct (files s1 !! image_path dir (image_hash row1)) as [c|] eqn:Hp.
      - rewrite download_image_exists by (rewrite Hp; eauto). simpl. rewrite Hp. eauto.
      - rewrite (download_image_saved w _ _ _ _ r) by done. simpl.
        rewrite lookup_insert_eq. eauto. }
    destruct (fn row1 s1) as [s1' r1'] eqn:E2.
    pose proof (executor_run_files_mono fn l2 s1'
                  ltac:(intros c _; apply download_image_gated)) as Hmono.
    destruct (executor_run fn l2 s1') as [s1'' r1''] eqn:E3.
    rewrite Happ. simpl in *.
    by eapply lookup_weaken_is_Some_files.
Qed.

Lemma shared_image_hash_witness :
  download_image image_world (image_url row_B) (image_hash row_B) "images"
    (executor_run
       (fun row => download_image image_world (image_url row) (image_hash row) "images")
       [row_A] empty_state).1
  = (add_log (INFO, ImageAlreadyExists "images/h1.jpg")
       (executor_run
          (fun row => download_image image_world (image_url row) (image_hash row) "images")
          [row_A] empty_state).1, Return tt).
Proof.
  assert (~ (400 <= 200 < 600)%Z) as Hst by lia.
  exact (proj1 (proj2 (shared_image_hash image_world shared_hash_lines "images" empty_state
                         [] [] [] row_A row_B (ok_response "JPEG")
                         eq_refl eq_refl eq_refl Hst eq_refl eq_refl))).
Defined.

(** ** What a failure leaves behind *)

Section Leftovers.

Context (w : world).

(** The transfer breaks after the headers: the chunks that arrived are in
    the file, the exception is logged, the bar is not closed. *)
Lemma download_video_broken url h dir s r total e :
  files s !! video_path dir h = None ->
  response_of w url true = Return r ->
  ~ (400 <= status_code r < 600)%Z ->
  content_length r = ret total ->
  open_wb w (video_path dir h) = None ->
  (forall offset, file_write w (video_path dir h) offset = None) ->
  broken r = Some e ->
  download_video w url h dir s
  = ({| files := <[video_path dir h := content r]> (files s);
        log := log s ++ [error_record e];
        requests := requests s ++ [ {| req_url := url; req_stream := true |} ];
        progress :=
          progress s
          ++ TqdmNew total ("Downloading " +:+ video_path dir h)
             :: ((fun c => TqdmUpdate (length c)) <$> iter_content block_size (content r)) |},
     Return tt).
Proof.
  intros Hs Hr Hst Ht Hopen Hwr Hb. unfold download_video, error_record.
  set (p := video_path dir h) in *. apply wp_eq. open_gate Hs.
  wp_step. wp_step. wp_step. rewrite Hr. wp_step. wp_step.
  rewrite is_error_status_false by done. wp_step. rewrite Ht. wp_step. simpl.
  wp_step. wp_step. simpl. wp_step. wp_step. rewrite Hopen.
  wp_step. unfold wp at 1.
  erewrite (write_chunks_ok w p _ Hwr []) by (simpl; apply lookup_insert_eq). simpl.
  wp_step. rewrite Hb. wp_step. simpl.
  destruct (isinstance_HTTPError e); simpl; wp_step.
  all: split; [| done]; apply state_eq; simpl; try done.
  all: try (rewrite insert_insert_eq;
            by rewrite concat_iter_content by (unfold block_size; lia)).
  all: by rewrite <- !app_assoc.
Qed.

End Leftovers.

(** X5. When the transfer of a video breaks midway, [download_video]
    logs the error and leaves the bytes that arrived in the target; the next
    call finds the target and skips it, so the partial file stays. *)
Theorem partial_video_is_kept (w : world) (url h : pyval) (dir : string) (s : state)
    (r : response) (total : Z) (e : exn) :
  files s !! video_path dir h = None ->
  response_of w url true = Return r ->
  ~ (400 <= status_code r < 600)%Z ->
  content_length r = ret total ->
  open_wb w (video_path dir h) = None ->
  (forall offset, file_write w (video_path dir h) offset = None) ->
  broken r = Some e ->
  let s1 := (download_video w url h dir s).1 in
  files s1 = <[video_path dir h := content r]> (files s) /\
  log s1 = log s ++ [error_record e] /\
  (TqdmClose ∉ drop (length (progress s)) (progress s1)) /\
  download_video w url h dir s1
  = (add_log (INFO, VideoAlreadyExists (video_path dir h)) s1, Return tt).
Proof.
  intros Hs Hr Hst Ht Hopen Hwr Hb s1. unfold s1.
  rewrite (download_video_broken w url h dir s r total e) by done. simpl.
  repeat split.
  - rewrite drop_app_length. intros [H | H]%elem_of_cons; [done |].
    apply list_elem_of_fmap in H as (c & Hc & _). done.
  - apply download_video_exists. simpl. rewrite lookup_insert_eq. eauto.
Qed.

Lemma partial_video_is_kept_witness :
  files (download_video (video_world (broken_response "abcd" ChunkedEncodingError))
           (PyStr "https://cdn/hd.mp4") (PyStr "h") "videos" empty_state).1
  = <[ "videos/h.mp4" := list_byte_of_string "abcd" ]> ∅.
Proof.
  assert (~ (400 <= 200 < 600)%Z) as Hst by lia.
  exact (proj1 (partial_video_is_kept
                  (video_world (broken_response "abcd" ChunkedEncodingError))
                  (PyStr "https://cdn/hd.mp4") (PyStr "h") "videos" empty_state
                  (broken_response "abcd" ChunkedEncodingError) 0 ChunkedEncodingError
                  eq_refl eq_refl Hst eq_refl eq_refl (fun _ => eq_refl) eq_refl)).
Defined.

(** X6. When the write of an image fails after the file was opened,
    [download_image] logs the error and a file stays at the target, whatever
    the failed write left in it; no other file changes.  From then on the
    image is skipped in every state that still has a file at the target,
    also when the disk and the network work again: the file is never
    repaired. *)
Theorem failed_write_blocks_image (w : world) (url h : pyval) (dir : string) (s : state)
    (r : response) (e : exn) :
  files s !! image_path dir h = None ->
  response_of w url false = Return r ->
  ~ (400 <= status_code r < 600)%Z ->
  open_wb w (image_path dir h) = None ->
  file_write w (image_path dir h) 0 = Some e ->
  let s1 := (download_image w url h dir s).1 in
  is_Some (files s1 !! image_path dir h) /\
  (forall q, q <> image_path dir h -> files s1 !! q = files s !! q) /\
  log s1 = log s ++ [error_record e] /\
  (forall w' url' s2,
      (forall q, is_Some (files s1 !! q) -> is_Some (files s2 !! q)) ->
      download_image w' url' h dir s2
      = (add_log (INFO, ImageAlreadyExists (image_path dir h)) s2, Return tt)).
Proof.
  intros Hs Hr Hst Hopen Hwr s1. unfold s1.
  rewrite (download_image_write_fails w url h dir s r e) by done. simpl.
  assert (is_Some ((<[image_path dir h := []]> (files s) : gmap string (list Byte.byte))
                     !! image_path dir h)) as Hex
    by (rewrite lookup_insert_eq; eauto).
  split; [exact Hex |]. split; [| split; [done |]].
  - intros q Hq. by rewrite lookup_insert_ne.
  - intros w' url' s2 Hkept. apply download_image_exists. by apply Hkept.
Qed.

Lemma failed_write_blocks_image_witness :
  download_image image_world (PyStr "https://pbs.twimg.com/media/A.jpg") (PyStr "h1") "images"
    (download_image full_disk_world (PyStr "https://pbs.twimg.com/media/A.jpg")
       (PyStr "h1") "images" empty_state).1
  = (add_log (INFO, ImageAlreadyExists "images/h1.jpg")
       (download_image full_disk_world (PyStr "https://pbs.twimg.com/media/A.jpg")
          (PyStr "h1") "images" empty_state).1,
     Return tt).
Proof.
  assert (~ (400 <= 200 < 600)%Z) as Hst by lia.
  pose proof (failed_write_blocks_image full_disk_world
                (PyStr "https://pbs.twimg.com/media/A.jpg") (PyStr "h1") "images"
                empty_state (ok_response "JPEG") OSError
                eq_refl eq_refl Hst eq_refl eq_refl) as (_ & _ & _ & Hskip).
  exact (Hskip image_world (PyStr "https://pbs.twimg.com/media/A.jpg") _ (fun _ H => H)).
Defined.

(** X7. A failure of the request (transport, or a 4xx or 5xx status)
    leaves nothing behind: the files are unchanged, and the next call for
    the same image makes the same request again. *)
Theorem failed_image_is_requested_again (w : world) (url h : pyval) (dir : string)
    (s : state) :
  files s !! image_path dir h = None ->
  (exists e, response_of w url false = Raise e) \/
  (exists r, response_of w url false = Return r /\ (400 <= status_code r < 600)%Z) ->
  let s1 := (download_image w url h dir s).1 in
  let s2 := (download_image w url h dir s1).1 in
  files s2 = files s /\
  requests s2
  = requests s ++ [ {| req_url := url; req_stream := false |};
                    {| req_url := url; req_stream := false |} ] /\
  exists m, log s2 = log s ++ [(ERROR, m); (ERROR, m)].
Proof.
  intros Hs [[e He] | (r & Hr & Hst)] s1 s2; unfold s2, s1.
  - rewrite (download_image_fails w url h dir s e) by done. simpl.
    rewrite (download_image_fails w url h dir _ e) by done. simpl.
    repeat split; [by rewrite <- app_assoc |].
    eexists. by rewrite <- app_assoc.
  - rewrite (download_image_http_error w url h dir s r) by done. simpl.
    rewrite (download_image_http_error w url h dir _ r) by done. simpl.
    repeat split; [by rewrite <- app_assoc |].
    eexists. by rewrite <- app_assoc.
Qed.

Lemma failed_image_is_requested_again_witness :
  requests (download_image unreachable_world (PyStr "https://pbs.twimg.com/media/A.jpg")
              (PyStr "h1") "images"
              (download_image unreachable_world (PyStr "https://pbs.twimg.com/media/A.jpg")
                 (PyStr "h1") "images" empty_state).1).1
  = [] ++ [ {| req_url := PyStr "https://pbs.twimg.com/media/A.jpg"; req_stream := false |};
            {| req_url := PyStr "https://pbs.twimg.com/media/A.jpg"; req_stream := false |} ].
Proof.
  exact (proj1 (proj2 (failed_image_is_requested_again unreachable_world
                         (PyStr "https://pbs.twimg.com/media/A.jpg") (PyStr "h1") "images"
                         empty_state eq_refl
                         (or_introl (ex_intro _ ConnectionError eq_refl))))).
Defined.

(** X8. A [Content-Length] that [int] cannot read makes [download_video]
    fail before the file is opened: the [ValueError] is logged and nothing
    is written, although the response itself was fine. *)
Theorem unreadable_content_length (w : world) (url h : pyval) (dir : string) (s : state)
    (r : response) (v : string) :
  files s !! video_path dir h = None ->
  response_of w url true = Return r ->
  ~ (400 <= status_code r < 600)%Z ->
  headers r !! "content-length" = Some v ->
  py_int v = None ->
  download_video w url h dir s
  = (add_log (ERROR, ErrorOccurred ValueError)
       (add_request {| req_url := url; req_stream := true |} s), Return tt).
Proof.
  intros Hs Hr Hst Hv Hint. unfold download_video. apply wp_eq. open_gate Hs.
  wp_step. wp_step. wp_step. rewrite Hr. wp_step. wp_step.
  rewrite is_error_status_false by done. wp_step. wp_step. rewrite Hv, Hint.
  wp_steps; done.
Qed.

Lemma unreadable_content_length_witness :
  download_video (video_world (declared_response "1,024" "abcd"))
    (PyStr "https://cdn/hd.mp4") (PyStr "h") "videos" empty_state
  = (add_log (ERROR, ErrorOccurred ValueError)
       (add_request {| req_url := PyStr "https://cdn/hd.mp4"; req_stream := true |}
          empty_state), Return tt).
Proof.
  assert (~ (400 <= 200 < 600)%Z) as Hst by lia.
  exact (unreadable_content_length (video_world (declared_response "1,024" "abcd"))
           (PyStr "https://cdn/hd.mp4") (PyStr "h") "videos" empty_state
           (declared_response "1,024" "abcd") "1,024"
           eq_refl eq_refl Hst eq_refl eq_refl).
Defined.

(** X9. The resolver never looks at the status or the headers of the
    landing page: two answers whose bodies parse to the same document
    resolve alike, whatever their status. *)
Theorem resolver_ignores_status (w w' : world) (api : string) (s : state)
    (r r' : response) :
  response_of w (PyStr api) false = Return r ->
  response_of w' (PyStr api) false = Return r' ->
  html_parser w (content r) = html_parser w' (content r') ->
  (extract_highest_quality_video_url w api s).2
  = (extract_highest_quality_video_url w' api s).2.
Proof.
  intros Hr Hr' Hdoc. rewrite !extract_run. simpl.
  unfold resolved, extract_highest_quality_video_url, bind, requests_get, index0, ret, raise.
  cbn -[response_of find_all]. rewrite Hr, Hr', Hdoc.
  destruct (find_all (html_parser w' (content r')) "div" (Some "origin-top-right"))
    as [|c cs]; [done |].
  by destruct (find_all c "a" None).
Qed.

Lemma resolver_ignores_status_witness :
  (extract_highest_quality_video_url
     (not_found_landing_world [Some "https://cdn/hd.mp4"]) landing_url empty_state).2
  = (extract_highest_quality_video_url
       (landing_world [Some "https://cdn/hd.mp4"]) landing_url empty_state).2.
Proof.
  exact (resolver_ignores_status (not_found_landing_world [Some "https://cdn/hd.mp4"])
           (landing_world [Some "https://cdn/hd.mp4"]) landing_url empty_state
           (status_response 404 "page") (ok_response "page") eq_refl eq_refl eq_refl).
Defined.

(** ** Requests of a run *)

Section Requests.

Context (w : world).

Lemma download_image_requests url h dir s :
  requests (download_image w url h dir s).1
  = requests s
    ++ (if bool_decide (is_Some (files s !! image_path dir h)) then []
        else [ {| req_url := url; req_stream := false |} ]).
Proof.
  change (wp (download_image w url h dir) s
            (fun s' _ => requests s'
                         = requests s
                           ++ (if bool_decide (is_Some (files s !! image_path dir h)) then []
                               else [ {| req_url := url; req_stream := false |} ]))).
  unfold download_image. wp_step. wp_step.
  destruct (bool_decide (is_Some (files s !! image_path dir h))).
  - wp_step. simpl. by rewrite app_nil_r.
  - wp_steps; done.
Qed.

Lemma download_image_progress url h dir s :
  progress (download_image w url h dir s).1 = progress s.
Proof.
  change (wp (download_image w url h dir) s (fun s' _ => progress s' = progress s)).
  unfold download_image. wp_steps; done.
Qed.

Lemma executor_run_image_requests dir rows :
  forall s, exists l,
    requests (executor_run
                (fun row => download_image w (image_url row) (image_hash row) dir)
                rows s).1 = requests s ++ l /\
    sublist l (image_request <$> rows).
Proof.
  induction rows as [|row rows IH]; intros s; simpl.
  - exists []. by rewrite app_nil_r.
  - pose proof (download_image_requests (image_url row) (image_hash row) dir s) as Hreq.
    destruct (download_image w (image_url row) (image_hash row) dir s) as [s1 r1].
    simpl in Hreq. destruct (IH s1) as (l & Hl & Hsub).
    destruct (executor_run _ rows s1) as [s2 rs]. simpl in *.
    rewrite Hl, Hreq.
    destruct (bool_decide (is_Some (files s !! image_path dir (image_hash row)))).
    + exists l. rewrite app_nil_r. split; [done | by apply sublist_cons].
    + exists (image_request row :: l). rewrite <- app_assoc. split; [done |].
      by apply sublist_skip.
Qed.

End Requests.

#[local] Instance plain_request_inj :
  Inj (=) (=) (fun u => {| req_url := u; req_stream := false |}).
Proof. by intros u1 u2 [= ->]. Qed.

(** X10. The requests of a run of [download_images] are plain GETs of
    URLs of rows of the work list, at most one per row, and no URL is
    requested twice.  The calls of the pool run in no fixed order: nothing is
    said about the order of the requests. *)
Theorem images_requested_once (w : world) (csv : list image_line) (dir : string)
    (s : state) :
  exists l,
    requests (download_images w csv dir s).1 = requests s ++ l /\
    l ⊆+ (image_request <$> unique_images csv) /\
    NoDup l /\
    length l <= length (unique_images csv).
Proof.
  rewrite download_images_run. simpl.
  destruct (executor_run_image_requests w dir (unique_images csv) s) as (l & Hl & Hsub).
  exists l. split; [done |]. split; [by apply sublist_submseteq |]. split.
  - eapply sublist_NoDup; [| exact Hsub].
    assert (image_request <$> unique_images csv
            = (fun u => {| req_url := u; req_stream := false |})
                <$> (image_url <$> unique_images csv)) as ->.
    { rewrite <- list_fmap_compose. done. }
    apply (NoDup_fmap_2 (fun u => {| req_url := u; req_stream := false |})).
    apply drop_duplicates_from_NoDup.
  - apply sublist_length in Hsub. by rewrite length_fmap in Hsub.
Qed.

(** ** A run on a complete collection *)

Section Complete.

Context (w : world).

Lemma executor_run_images_exist dir rows :
  forall s,
    Forall (fun row => is_Some (files s !! image_path dir (image_hash row))) rows ->
    (executor_run (fun row => download_image w (image_url row) (image_hash row) dir)
       rows s).1
    = {| files := files s; log := log s ++ (image_skipped dir <$> rows);
         requests := requests s; progress := progress s |}.
Proof.
  induction rows as [|row rows IH]; intros s Hall; simpl.
  - rewrite app_nil_r. by destruct s.
  - apply Forall_cons in Hall as [Hrow Hall].
    rewrite download_image_exists by done.
    specialize (IH (add_log (INFO, ImageAlreadyExists (image_path dir (image_hash row))) s)
                  Hall).
    destruct (executor_run _ rows _) as [s2 rs]. simpl in *. rewrite IH.
    by rewrite <- app_assoc.
Qed.

Lemma submit_videos_exist dir rows :
  forall futures s,
    Forall (fun row => is_Some (files s !! video_path dir (video_hash row))) rows ->
    submit_videos w rows dir futures s
    = ({| files := files s; log := log s ++ (video_skipped dir <$> rows);
          requests := requests s; progress := progress s |}, Return futures).
Proof.
  induction rows as [|row rows IH]; intros futures s Hall.
  - simpl. unfold ret. rewrite app_nil_r. by destruct s.
  - apply Forall_cons in Hall as [Hrow Hall].
    rewrite submit_videos_skip by done. rewrite IH by done. simpl.
    by rewrite <- app_assoc.
Qed.

End Complete.

(** X11. When the target of every image and of every video exists,
    [run_media_collection] makes no request and touches no file: it logs one
    skip per item and then its closing line.  The two pipelines and the calls
    of the pool run in no fixed order: the skips are given up to their
    order. *)
Theorem complete_collection_is_offline (w : world) (images_csv : list image_line)
    (videos_csv : list video_line) (s : state) :
  Forall (fun row => is_Some (files s !! image_path image_save_dir (image_hash row)))
         (unique_images images_csv) ->
  Forall (fun row => is_Some (files s !! video_path video_save_dir (video_hash row)))
         (unique_videos videos_csv) ->
  exists skips,
    run_media_collection w images_csv videos_csv s
    = ({| files := files s;
          log := log s ++ skips ++ [(INFO, CollectionCompleted)];
          requests := requests s;
          progress := progress s |}, Return tt) /\
    skips ≡ₚ (image_skipped image_save_dir <$> unique_images images_csv)
             ++ (video_skipped video_save_dir <$> unique_videos videos_csv).
Proof.
  intros Himg Hvid.
  exists ((image_skipped image_save_dir <$> unique_images images_csv)
          ++ (video_skipped video_save_dir <$> unique_videos videos_csv)).
  split; [| done].
  rewrite run_media_collection_run.
  rewrite download_images_run. cbn [fst].
  rewrite (executor_run_images_exist w image_save_dir _ s Himg).
  rewrite download_videos_run. cbn [fst].
  rewrite (submit_videos_exist w video_save_dir (unique_videos videos_csv) []) by done.
  cbn [fst files].
  assert (pending w video_save_dir (files s) (unique_videos videos_csv) = []) as ->.
  { apply elem_of_nil_inv. intros c (row & Hrow & Hnone & _)%elem_of_pending.
    rewrite Forall_forall in Hvid. destruct (Hvid row Hrow) as [b Hb]. congruence. }
  simpl. f_equal. unfold add_log. simpl. f_equal. by rewrite <- !app_assoc.
Qed.

Lemma complete_collection_is_offline_witness :
  exists skips,
    run_media_collection unreachable_world (one_image "h1") []
      (run_media_collection image_world (one_image "h1") [] empty_state).1
    = ({| files := files (run_media_collection image_world (one_image "h1") [] empty_state).1;
          log := log (run_media_collection image_world (one_image "h1") [] empty_state).1
                 ++ skips ++ [(INFO, CollectionCompleted)];
          requests :=
            requests (run_media_collection image_world (one_image "h1") [] empty_state).1;
          progress :=
            progress (run_media_collection image_world (one_image "h1") [] empty_state).1 |},
       Return tt) /\
    skips ≡ₚ (image_skipped image_save_dir <$> unique_images (one_image "h1"))
             ++ (video_skipped video_save_dir <$> unique_videos []).
Proof.
  apply (complete_collection_is_offline unreachable_world (one_image "h1") []).
  - repeat constructor. by eexists.
  - constructor.
Defined.


(** ** The work list *)

Section Work_list.

Context {R : Type} (col : R -> pyval).

Lemma dropna_sublist (df : list R) : sublist (dropna col df) df.
Proof.
  unfold dropna. induction df as [|x df IH]; simpl; [constructor |].
  destruct (pd_notna (col x)); by constructor.
Qed.

Lemma drop_duplicates_from_sublist (df : list R) :
  forall seen, sublist (drop_duplicates_from col seen df) df.
Proof.
  induction df as [|x df IH]; intros seen; simpl; [constructor |].
  case_bool_decide; [apply sublist_cons | apply sublist_skip]; apply IH.
Qed.

Lemma dropna_all_notna (df : list R) :
  Forall (fun r => pd_notna (col r) = true) df -> dropna col df = df.
Proof.
  unfold dropna. induction 1 as [|x df Hx _ IH]; simpl; [done |]. by rewrite Hx, IH.
Qed.

Lemma drop_duplicates_from_NoDup_id (df : list R) :
  forall seen,
    NoDup (col <$> df) -> (forall r, r ∈ df -> col r ∉ seen) ->
    drop_duplicates_from col seen df = df.
Proof.
  induction df as [|x df IH]; intros seen Hnd Hseen; simpl; [done |].
  apply NoDup_cons in Hnd as [Hx Hnd].
  rewrite bool_decide_eq_false_2 by (apply Hseen; by left).
  f_equal. apply IH; [done |]. intros r Hr [E|Hs]%elem_of_cons.
  - apply Hx. rewrite <- E. by apply list_elem_of_fmap_2.
  - apply (Hseen r); [by right | done].
Qed.

End Work_list.

(** X12. The work list keeps the order of the file: the rows that
    [dropna] and [drop_duplicates] leave are a subsequence of the frame; and
    it is stable: applying the two calls again changes nothing. *)
Theorem work_list_order {R : Type} (col : R -> pyval) (df : list R) :
  sublist (dedup col df) df /\
  length (dedup col df) <= length df /\
  dedup col (dedup col df) = dedup col df.
Proof.
  assert (sublist (dedup col df) df) as Hsub.
  { etrans; [apply drop_duplicates_from_sublist | apply dropna_sublist]. }
  split; [done |]. split; [by apply sublist_length |].
  unfold dedup at 1. rewrite dropna_all_notna.
  - apply drop_duplicates_from_NoDup_id.
    + apply drop_duplicates_from_NoDup.
    + intros r _. by inversion 1.
  - apply Forall_forall. intros r Hr. by apply (dedup_notna col df).
Qed.

(** ** The progress bar *)




(** ** Files a run can create *)

Lemma executor_run_new_file {T} (fn : T -> M unit) (path : T -> string) calls :
  (forall c, c ∈ calls -> gated_writer_at (path c) (fn c)) ->
  forall s q,
    files s !! q = None ->
    is_Some (files (executor_run fn calls s).1 !! q) ->
    exists c, c ∈ calls /\ q = path c.
Proof.
  induction calls as [|c calls IH]; intros Hg s q Hq Hnew; simpl in Hnew.
  - rewrite Hq in Hnew. by destruct Hnew.
  - destruct (decide (q = path c)) as [->|Hne]; [exists c; split; [by left | done] |].
    pose proof (gated_writer_at_other (fn c) (path c) s q
                  (Hg c ltac:(by left)) Hne) as Hsame.
    destruct (fn c s) as [s1 r1]. simpl in Hsame.
    destruct (executor_run fn calls s1) as [s2 rs] eqn:E. simpl in Hnew.
    destruct (IH ltac:(intros; apply Hg; by right) s1 q) as (c' & Hc' & ->).
    + by rewrite Hsame.
    + by rewrite E.
    + exists c'. split; [by right | done].
Qed.

(** X14. A pipeline creates no file but the targets of its rows: a path
    that appears during [download_images] is [download_dir/image_hash.jpg]
    of a row of the work list, and a path that appears during
    [download_videos] is [download_dir/md5(url).mp4] for a URL of the file. *)
Theorem pipelines_create_only_targets (w : world) (images_csv : list image_line)
    (videos_csv : list video_line) (dir : string) (s : state) (q : string) :
  (files s !! q = None ->
   is_Some (files (download_images w images_csv dir s).1 !! q) ->
   exists row, row ∈ unique_images images_csv /\ q = image_path dir (image_hash row)) /\
  (files s !! q = None ->
   is_Some (files (download_videos w videos_csv dir s).1 !! q) ->
   exists l, l ∈ videos_csv /\
             q = video_path dir (PyStr (hash_url (video_url_field l)))).
Proof.
  split.
  - rewrite download_images_run. simpl. intros Hq Hnew.
    apply (executor_run_new_file
             (fun row => download_image w (image_url row) (image_hash row) dir)
             (fun row => image_path dir (image_hash row))
             (unique_images images_csv)
             ltac:(intros row _; apply download_image_gated_at) s q Hq Hnew).
  - rewrite download_videos_run. simpl. intros Hq Hnew.
    destruct (submit_videos_run w dir (unique_videos videos_csv) [] s)
      as (s1 & E1 & Hf & _).
    rewrite E1 in Hnew. simpl in Hnew.
    destruct (executor_run_new_file (run_video_call w)
                (fun c => video_path (call_dir c) (call_hash c))
                (pending w dir (files s) (unique_videos videos_csv))
                ltac:(intros c _; apply download_video_gated_at) s1 q
                ltac:(by rewrite Hf) Hnew) as (c & Hc & ->).
    apply elem_of_pending in Hc as (row & Hrow & _ & _ & -> & ->).
    apply elem_of_unique_videos in Hrow as (l & u & Hl & <- & _ & _ & ->).
    by exists l.
Qed.

Lemma pipelines_create_only_targets_witness :
  exists row, row ∈ unique_images (one_image "h1") /\
              "images/h1.jpg" = image_path "images" (image_hash row).
Proof.
  exact (proj1 (pipelines_create_only_targets image_world (one_image "h1") [] "images"
                  empty_state "images/h1.jpg")
           eq_refl (ex_intro _ (list_byte_of_string "JPEG") eq_refl)).
Defined.

(** ** Requests of the videos pipeline *)

Section Video_requests.

Context (w : world) (dir : string).







End Video_requests.


